(** * rag-api: the query pipeline of the RAG server, embedded in Rocq

    The development follows the Go packages of the repository:
    - [fmt] / [errors]: the few library calls the services rely on
      (error values, [Sprintf], [Errorf]);
    - [models], [services] (TEI, Weaviate, vLLM, RAG), [handlers].

    Network clients are fields of the service structs, as in the code; a call
    through a client is recorded in a trace that is threaded through every
    function that can reach the network. *)

From Stdlib Require Import ZArith QArith Strings.String Strings.Ascii Numbers.DecimalString.
From stdpp Require Import base option list strings gmap.

Local Open Scope Z_scope.
#[local] Set Warnings "-register-all".


(* ===================================================================== *)
(** ** Go error values and the [fmt] verbs used by the services *)
(* ===================================================================== *)

(** A Go [error] as the services build and receive it: a leaf carrying a
    message ([errors.New], [fmt.Errorf] without [%w], and every error handed
    back by a client library), a [fmt.Errorf] with [%w], which stores the
    formatted message and the wrapped cause, or a [*fiber.Error]. *)
Inductive error : Type :=
| errorString (s : string)
| wrapError (msg : string) (err : error)
| fiberError (Code : Z) (Message : string).

(** [err.Error()] *)
Definition Error (e : error) : string :=
  match e with
  | errorString s => s
  | wrapError msg _ => msg
  | fiberError _ m => m
  end.

(** [errors.Unwrap(err)] *)
Definition Unwrap (e : error) : option error :=
  match e with
  | wrapError _ err => Some err
  | _ => None
  end.

Definition errors_New (text : string) : error := errorString text.

(** An operand of a formatting call. *)
Inductive operand : Type :=
| OInt (n : Z)
| OStr (s : string)
| OErr (e : error).

(** [strconv.Itoa] / the [%d] verb on an [int]. *)
Definition Itoa (n : Z) : string := NilZero.string_of_int (Z.to_int n).

(** One verb applied to one operand.  The services use [%s] on strings,
    [%d] on ints and [%w] on errors only; any other pairing prints Go's
    bad-verb marker, which none of the format strings below can reach. *)
Definition formatVerb (verb : ascii) (a : operand) : string :=
  match a with
  | OStr s => if Ascii.eqb verb "s" then s else "%!" +:+ String verb "(string=" +:+ s +:+ ")"
  | OInt n => if Ascii.eqb verb "d" then Itoa n else "%!" +:+ String verb "(int=" +:+ Itoa n +:+ ")"
  | OErr e => if Ascii.eqb verb "w" || Ascii.eqb verb "s" || Ascii.eqb verb "v"
              then Error e else "%!" +:+ String verb "(error=" +:+ Error e +:+ ")"
  end.

(** [fmt.Sprintf]: literal text is copied, a [%] consumes the next operand. *)
Fixpoint Sprintf (format : string) (a : list operand) : string :=
  match format with
  | EmptyString => EmptyString
  | String c rest =>
      if Ascii.eqb c "%" then
        match rest with
        | EmptyString => "%!(NOVERB)"
        | String verb rest' =>
            if Ascii.eqb verb "%" then String "%" (Sprintf rest' a)
            else match a with
                 | [] => "%!" +:+ String verb "(MISSING)" +:+ Sprintf rest' []
                 | x :: a' => formatVerb verb x +:+ Sprintf rest' a'
                 end
        end
      else String c (Sprintf rest a)
  end.

(** The first error operand, which [%w] wraps. *)
Fixpoint firstErr (a : list operand) : option error :=
  match a with
  | [] => None
  | OErr e :: _ => Some e
  | _ :: a' => firstErr a'
  end.

(** Whether a format string holds a [%w] verb. *)
Fixpoint hasVerbW (format : string) : bool :=
  match format with
  | EmptyString => false
  | String c rest =>
      if Ascii.eqb c "%" then
        match rest with
        | EmptyString => false
        | String verb rest' => Ascii.eqb verb "w" || hasVerbW rest'
        end
      else hasVerbW rest
  end.

(** [fmt.Errorf]: with a [%w] verb the result wraps its operand, otherwise it
    is a plain message. *)
Definition Errorf (format : string) (a : list operand) : error :=
  let msg := Sprintf format a in
  if hasVerbW format then
    match firstErr a with
    | Some err => wrapError msg err
    | None => errorString msg
    end
  else errorString msg.

(* ===================================================================== *)
(** ** What the Go runtime and the client libraries provide *)
(* ===================================================================== *)

(** The two float widths and the conversion [float32(v)].  The pipeline never
    inspects a component of an embedding, so the representation is left
    open. *)
Class Floats : Type := {
  float64 : Type;
  float32 : Type;
  float32_of_float64 : float64 -> float32
}.

(** A dynamically typed JSON value ([interface{}] after decoding): the search
    response is made of these. *)
Inductive value `{Floats} : Type :=
| VNil
| VBool (b : bool)
| VNumber (x : float64)
| VString (s : string)
| VArray (l : list value)
| VObject (m : gmap string value).

Section dynamic.
Context `{Floats}.

(** [m[k]] on a [map[string]interface{}]: a missing key reads as nil. *)
Definition index (m : gmap string value) (k : string) : value :=
  default VNil (m !! k).

(** [x.(map[string]interface{})], [x.([]interface{})], [x.(string)] in
    their comma-ok form: [None] is [ok == false]. *)
Definition assertMap (x : value) : option (gmap string value) :=
  match x with VObject m => Some m | _ => None end.

Definition assertSlice (x : value) : option (list value) :=
  match x with VArray l => Some l | _ => None end.

Definition assertString (x : value) : option string :=
  match x with VString s => Some s | _ => None end.
End dynamic.

Module models.
Record QueryRequest : Type := { Query : string }.
Record QueryResponse : Type := { Response : string }.
Record ErrorResponse : Type := { Error : string }.

Record TEIRequest : Type := {
  Inputs : list string;
  Truncate : bool;
  Normalize : bool
}.

Definition TEIResponse `{Floats} : Type := list (list float64).

(** weaviate's [models.GraphQLResponse]; [Errors] is never read. *)
Record GraphQLResponse `{Floats} : Type := {
  Data : gmap string value;
  Errors : list string
}.
End models.

Module http.
Definition MethodPost : string := "POST".
Definition StatusOK : Z := 200.

Record Request : Type := {
  Method : string;
  URL : string;
  Header : list (string * string);
  Body : string
}.

Record Response : Type := {
  StatusCode : Z;
  RespBody : string
}.

(** [req.Header.Set(key, v)] *)
Definition Header_Set (req : Request) (key v : string) : Request :=
  {| Method := Method req; URL := URL req;
     Header := (key, v) :: filter (fun kv => kv.1 ≠ key) (Header req);
     Body := Body req |}.

(** [*http.Client]: what [Do] answers to a request, a transport error or a
    response. *)
Record Client : Type := { Do : Request -> error + Response }.
End http.

Module graphql.
Record Field : Type := { Name : string }.

(** The [Get()] builder after its [With...] calls. *)
Record GetBuilder `{Floats} : Type := {
  className : string;
  fields : list Field;
  nearVector : list float32;
  limit : Z
}.

(** [*weaviate.Client], seen through [GraphQL().Get()...Do(ctx)]. *)
Record Client `{Floats} : Type :=
  { Do : GetBuilder -> error + models.GraphQLResponse }.
End graphql.

Module openai.
Definition ChatMessageRoleUser : string := "user".

Record ChatCompletionMessage : Type := { Role : string; Content : string }.

Record ChatCompletionRequest : Type := {
  Model : string;
  Messages : list ChatCompletionMessage;
  MaxTokens : Z;
  Stop : list string
}.

Record ChatCompletionChoice : Type := { Message : ChatCompletionMessage }.

Record ChatCompletionResponse : Type := { Choices : list ChatCompletionChoice }.

Record Client : Type :=
  { CreateChatCompletion : ChatCompletionRequest -> error + ChatCompletionResponse }.

(** [openai.ClientConfig], the two fields the server sets, and
    [openai.DefaultConfig]. *)
Record ClientConfig : Type := { authToken : string; BaseURL : string }.

Definition DefaultConfig (authToken : string) : ClientConfig :=
  {| authToken := authToken; BaseURL := "https://api.openai.com/v1" |}.
End openai.

Module weaviate.
(** [weaviate.Config], the two fields the server sets. *)
Record Config : Type := { Host : string; Scheme : string }.
End weaviate.

(** Library functions whose result depends on bytes the services never look
    at: [json.Marshal] of the embedding request, [http.NewRequestWithContext]
    and [json.NewDecoder(body).Decode] into a [TEIResponse]. *)
Class StdLib `{Floats} : Type := {
  json_Marshal : models.TEIRequest -> error + string;
  http_NewRequestWithContext : string -> string -> string -> error + http.Request;
  json_Decode : string -> error + models.TEIResponse
}.

(** The client constructors [server.New] calls: [openai.NewClientWithConfig],
    the [&http.Client{Timeout: d}] literal ([d] in nanoseconds) and
    [weaviate.NewClient], the only one that can fail. *)
Class Dialer `{Floats} : Type := {
  openai_NewClientWithConfig : openai.ClientConfig -> openai.Client;
  http_ClientWithTimeout : Z -> http.Client;
  weaviate_NewClient : weaviate.Config -> error + graphql.Client
}.

(* ===================================================================== *)
(** ** Traces of calls *)
(* ===================================================================== *)

(** The four stages [RAGService.Query] runs: [GetEmbedding], [SearchSimilar],
    [buildContext] with the template, and [GenerateResponse]. *)
Inductive stage : Type :=
| EmbeddingProvider
| Retriever
| PromptBuilder
| Generator.

(** What a run leaves behind: [Invoke st] when [Query] enters a stage, one
    event per request that leaves the process through a client, and the body
    the handler writes. *)
Inductive event `{Floats} : Type :=
| Invoke (st : stage)
| HTTPDo (req : http.Request)
| GraphQLDo (q : graphql.GetBuilder)
| ChatCompletion (req : openai.ChatCompletionRequest)
| SendJSON (body : models.QueryResponse).

(** A computation that may call out: it extends the trace it is given. *)
Definition IO `{Floats} (A : Type) : Type := list event -> A * list event.

#[global] Instance IO_ret `{Floats} : MRet IO := fun A (a : A) t => (a, t).
#[global] Instance IO_bind `{Floats} : MBind IO :=
  fun A B (k : A -> IO B) (m : IO A) t => let '(a, t') := m t in k a t'.

Section calls.
Context `{Floats}.

Definition emit (e : event) : IO unit := fun t => (tt, t ++ [e]).

(** [c.Do(req)] on the HTTP client. *)
Definition http_Do (c : http.Client) (req : http.Request) : IO (error + http.Response) :=
  _ ← emit (HTTPDo req); mret (http.Do c req).

(** [....Do(ctx)] on the GraphQL builder. *)
Definition graphql_Do (c : graphql.Client) (q : graphql.GetBuilder)
  : IO (error + models.GraphQLResponse) :=
  _ ← emit (GraphQLDo q); mret (graphql.Do c q).

(** [c.CreateChatCompletion(ctx, req)] *)
Definition openai_CreateChatCompletion (c : openai.Client) (req : openai.ChatCompletionRequest)
  : IO (error + openai.ChatCompletionResponse) :=
  _ ← emit (ChatCompletion req); mret (openai.CreateChatCompletion c req).
End calls.

(** The line feed that Go writes [\n]. *)
Definition LF : string := String "010" EmptyString.

(* ===================================================================== *)
(** ** Package [services] *)
(* ===================================================================== *)

Module services.
Section services.
Context `{StdLib}.

(* ---------------------------- TEIService ---------------------------- *)

Record TEIService : Type := {
  baseURL : string;
  httpClient : http.Client
}.

Definition NewTEIService (baseURL : string) (httpClient : http.Client) : TEIService :=
  {| baseURL := baseURL; httpClient := httpClient |}.

(** The guard [len(response) == 0 || len(response[0]) == 0] is read as a
    match: [response[0]] is only evaluated on a non-empty batch. *)
Definition GetEmbedding (s : TEIService) (text : string) : IO (list float64 * option error) :=
  let payload :=
    {| models.Inputs := [text]; models.Truncate := true; models.Normalize := true |} in
  match json_Marshal payload with
  | inl err => mret ([], Some (Errorf "failed to marshal TEI request: %w" [OErr err]))
  | inr payloadBytes =>
  match http_NewRequestWithContext http.MethodPost (baseURL s +:+ "/embed") payloadBytes with
  | inl err => mret ([], Some (Errorf "failed to create TEI request: %w" [OErr err]))
  | inr req =>
  let req := http.Header_Set req "Content-Type" "application/json" in
  r ← http_Do (httpClient s) req;
  match r with
  | inl err => mret ([], Some (Errorf "TEI request failed: %w" [OErr err]))
  | inr resp =>
  if negb (http.StatusCode resp =? http.StatusOK) then
    mret ([], Some (Errorf "TEI server returned status %d" [OInt (http.StatusCode resp)]))
  else
  match json_Decode (http.RespBody resp) with
  | inl err => mret ([], Some (Errorf "failed to decode TEI response: %w" [OErr err]))
  | inr response =>
  match response with
  | [] => mret ([], Some (errors_New "empty embedding response from TEI"))
  | response_0 :: _ =>
      if (length response_0 =? 0)%nat
      then mret ([], Some (errors_New "empty embedding response from TEI"))
      else mret (response_0, None)
  end end end end end.

(* -------------------------- WeaviateService -------------------------- *)

Record WeaviateService : Type := {
  client : graphql.Client;
  collectionName : string;
  searchLimit : Z
}.

Definition NewWeaviateService (client : graphql.Client) (collectionName : string)
    (searchLimit : Z) : WeaviateService :=
  {| client := client; collectionName := collectionName; searchLimit := searchLimit |}.

(** One iteration of the loop over the result items. *)
Definition appendChunk (chunks : list string) (item : value) : list string :=
  match assertMap item with
  | None => chunks
  | Some itemMap =>
      match assertString (index itemMap "text") with
      | Some text => if bool_decide (text ≠ "") then chunks ++ [text] else chunks
      | None => chunks
      end
  end.

Definition extractTextChunks (data : gmap string value) (collectionName : string)
  : list string * option error :=
  match assertMap (index data "Get") with
  | None => ([], Some (errors_New "invalid GraphQL response: missing Get field"))
  | Some get =>
      match assertSlice (index get collectionName) with
      | None =>
          ([], Some (Errorf "invalid GraphQL response: missing collection %s"
                       [OStr collectionName]))
      | Some class => (foldl appendChunk [] class, None)
      end
  end.

Definition SearchSimilar (s : WeaviateService) (embedding : list float64)
  : IO (list string * option error) :=
  let vector32 := float32_of_float64 <$> embedding in
  let fields := [ {| graphql.Name := "text" |} ] in
  let nearVector := vector32 in
  r ← graphql_Do (client s)
        {| graphql.className := collectionName s;
           graphql.fields := fields;
           graphql.nearVector := nearVector;
           graphql.limit := searchLimit s |};
  match r with
  | inl err => mret ([], Some (Errorf "Weaviate query failed: %w" [OErr err]))
  | inr resp => mret (extractTextChunks (models.Data resp) (collectionName s))
  end.

(* ------------------------ VLLMService (vllm.go) ---------------------- *)

Record VLLMService : Type := {
  vllm_client : openai.Client;
  modelName : string;
  maxTokens : Z
}.

Definition NewVLLMService (client : openai.Client) (modelName : string) (maxTokens : Z)
  : VLLMService :=
  {| vllm_client := client; modelName := modelName; maxTokens := maxTokens |}.

Definition GenerateResponse (s : VLLMService) (prompt : string) : IO (string * option error) :=
  let req :=
    {| openai.Model := modelName s;
       openai.Messages :=
         [ {| openai.Role := openai.ChatMessageRoleUser; openai.Content := prompt |} ];
       openai.MaxTokens := maxTokens s;
       openai.Stop := ["<|eot_id|>"] |} in
  r ← openai_CreateChatCompletion (vllm_client s) req;
  match r with
  | inl err => mret ("", Some (Errorf "vLLM completion failed: %w" [OErr err]))
  | inr resp =>
      match openai.Choices resp with
      | [] => mret ("", Some (errors_New "no completion choices returned from vLLM"))
      | choice_0 :: _ => mret (openai.Content (openai.Message choice_0), None)
      end
  end.

(* ------------------------- RAGService (rag.go) ----------------------- *)

Definition promptTemplate : string := Eval cbv in
  "<|begin_of_text|><|start_header_id|>system<|end_header_id|>" +:+ LF +:+
  "Use the following pieces of context to answer the question at the end." +:+ LF +:+
  "If you don't know the answer, just say that you don't know, don't try to make up an answer." +:+ LF +:+
  "Context:" +:+ LF +:+
  "%s" +:+ LF +:+
  "<|eot_id|><|start_header_id|>user<|end_header_id|>" +:+ LF +:+
  "Question:" +:+ LF +:+
  "%s" +:+ LF +:+
  "<|eot_id|><|start_header_id|>assistant<|end_header_id|>" +:+ LF.

Definition chunkFormat : string := Eval cbv in
  "--- Context Chunk %d ---" +:+ LF +:+ "%s" +:+ LF +:+ LF.

Record RAGService : Type := {
  tei : TEIService;
  weaviate : WeaviateService;
  vllm : VLLMService
}.

Definition NewRAGService (tei : TEIService) (weaviate : WeaviateService) (vllm : VLLMService)
  : RAGService :=
  {| tei := tei; weaviate := weaviate; vllm := vllm |}.

(** The [range] loop of [buildContext]: [i] is the index of the head of
    [chunks], [builder] what has been written so far. *)
Fixpoint buildContext_range (i : Z) (chunks : list string) (builder : string) : string :=
  match chunks with
  | [] => builder
  | chunk :: rest =>
      buildContext_range (i + 1) rest
        (builder +:+ Sprintf chunkFormat [OInt (i + 1); OStr chunk])
  end.

Definition buildContext (chunks : list string) : string :=
  if (length chunks =? 0)%nat then "No relevant context found."
  else buildContext_range 0 chunks "".

Definition Query (s : RAGService) (query : string) : IO (string * option error) :=
  _ ← emit (Invoke EmbeddingProvider);
  '(embedding, err) ← GetEmbedding (tei s) query;
  match err with
  | Some err => mret ("", Some (Errorf "failed to get embedding: %w" [OErr err]))
  | None =>
  _ ← emit (Invoke Retriever);
  '(contextChunks, err) ← SearchSimilar (weaviate s) embedding;
  match err with
  | Some err => mret ("", Some (Errorf "failed to search Weaviate: %w" [OErr err]))
  | None =>
  _ ← emit (Invoke PromptBuilder);
  let contextStr := buildContext contextChunks in
  let finalPrompt := Sprintf promptTemplate [OStr contextStr; OStr query] in
  _ ← emit (Invoke Generator);
  '(answer, err) ← GenerateResponse (vllm s) finalPrompt;
  match err with
  | Some err => mret ("", Some (Errorf "failed to generate answer: %w" [OErr err]))
  | None => mret (answer, None)
  end end end.
End services.
End services.

(* ===================================================================== *)
(** ** Packages [handlers] and [server] *)
(* ===================================================================== *)

Module fiber.
Definition StatusBadRequest : Z := 400.
Definition StatusInternalServerError : Z := 500.
Definition NewError (code : Z) (message : string) : error := fiberError code message.

(** The part of [*fiber.Ctx] the handler reads: what [c.BodyParser(&req)]
    makes of the request body, an error or the filled request struct. *)
Record Ctx : Type := { BodyParser : error + models.QueryRequest }.

(** The middleware [setupApp] installs. *)
Inductive Middleware : Type :=
| Recover
| Logger (Format TimeFormat : string)
| Cors.

(** [*fiber.App] as [setupApp] leaves it: the error handler and name of its
    [fiber.Config], the middleware in the order of [Use], and the routes
    (method, path, handler) in the order of registration. *)
Record App (Handler : Type) : Type := {
  ErrorHandler : error -> Z * models.ErrorResponse;
  AppName : string;
  uses : list Middleware;
  routes : list (string * string * Handler)
}.
Arguments ErrorHandler {Handler}.
Arguments AppName {Handler}.
Arguments uses {Handler}.
Arguments routes {Handler}.
End fiber.

Module handlers.
Section handlers.
Context `{StdLib}.

Record QueryHandler : Type := { ragService : services.RAGService }.

Definition NewQueryHandler (ragService : services.RAGService) : QueryHandler :=
  {| ragService := ragService |}.

(** [c.JSON(v)]: writes the body; marshalling a struct of one string
    cannot fail. *)
Definition c_JSON (v : models.QueryResponse) : IO (option error) :=
  _ ← emit (SendJSON v); mret None.

Definition Handle (h : QueryHandler) (c : fiber.Ctx) : IO (option error) :=
  match fiber.BodyParser c with
  | inl err => mret (Some (fiber.NewError fiber.StatusBadRequest "Invalid request body"))
  | inr req =>
      if bool_decide (models.Query req = "") then
        mret (Some (fiber.NewError fiber.StatusBadRequest "Query cannot be empty"))
      else
        '(answer, err) ← services.Query (ragService h) (models.Query req);
        match err with
        | Some err => mret (Some err)
        | None => c_JSON {| models.Response := answer |}
        end
  end.

(** [HandleHealth]: the body [c.JSON(fiber.Map{...})] writes, and its error. *)
Definition HandleHealth : gmap string string * option error :=
  ({[ "status" := "healthy" ]}, None).
End handlers.
End handlers.

(** *** Package [config] *)

Module config.
(** [time.Second], in nanoseconds. *)
Definition Second : Z := 1000000000.

Definition DefaultVLLMBaseURL : string := "http://localhost:8000/v1".
Definition DefaultTEIBaseURL : string := "http://localhost:8082".
Definition DefaultVLLMModelName : string := "microsoft/Phi-3-mini-128k-instruct".
Definition DefaultWeaviateHost : string := "localhost:8080".
Definition DefaultWeaviateScheme : string := "http".
Definition DefaultCollectionName : string := "LlamaIndex".
Definition DefaultServerPort : string := ":8081".
Definition DefaultMaxTokens : Z := 4096.
Definition DefaultSearchLimit : Z := 3.
Definition DefaultHTTPTimeout : Z := 30 * Second.
Definition ShutdownTimeout : Z := 10 * Second.

Record Config : Type := {
  VLLMBaseURL : string;
  TEIBaseURL : string;
  VLLMModelName : string;
  WeaviateHost : string;
  WeaviateScheme : string;
  CollectionName : string;
  ServerPort : string;
  MaxTokens : Z;
  SearchLimit : Z
}.

(** [os.Getenv] over the process environment [env]: an unset variable reads
    as the empty string. *)
Definition os_Getenv (env : gmap string string) (key : string) : string :=
  default "" (env !! key).

Definition getEnv (env : gmap string string) (key defaultValue : string) : string :=
  let value := os_Getenv env key in
  if bool_decide (value ≠ "") then value else defaultValue.

Definition Load (env : gmap string string) : Config :=
  {| VLLMBaseURL := getEnv env "VLLM_BASE_URL" DefaultVLLMBaseURL;
     TEIBaseURL := getEnv env "TEI_BASE_URL" DefaultTEIBaseURL;
     VLLMModelName := getEnv env "VLLM_MODEL_NAME" DefaultVLLMModelName;
     WeaviateHost := getEnv env "WEAVIATE_HOST" DefaultWeaviateHost;
     WeaviateScheme := getEnv env "WEAVIATE_SCHEME" DefaultWeaviateScheme;
     CollectionName := getEnv env "COLLECTION_NAME" DefaultCollectionName;
     ServerPort := getEnv env "SERVER_PORT" DefaultServerPort;
     MaxTokens := DefaultMaxTokens;
     SearchLimit := DefaultSearchLimit |}.
End config.

Module server.
(** The status and body [customErrorHandler] answers with. *)
Definition customErrorHandler (err : error) : Z * models.ErrorResponse :=
  let code :=
    match err with
    | fiberError Code _ => Code
    | _ => fiber.StatusInternalServerError
    end in
  (code, {| models.Error := Error err |}).

Section server.
Context `{StdLib} `{!Dialer}.

(** The two handlers [setupApp] registers. *)
Inductive Handler : Type :=
| QueryRoute (h : handlers.QueryHandler)
| HealthRoute.

Record Server : Type := {
  app : fiber.App Handler;
  cfg : config.Config;
  ragService : services.RAGService
}.

Definition setupApp (ragService : services.RAGService) : fiber.App Handler :=
  let queryHandler := handlers.NewQueryHandler ragService in
  {| fiber.ErrorHandler := customErrorHandler;
     fiber.AppName := "RAG API Server";
     fiber.uses :=
       [ fiber.Recover;
         fiber.Logger ("${time} ${status} - ${method} ${path} (${latency})" +:+ LF)
                      "2006-01-02 15:04:05";
         fiber.Cors ];
     fiber.routes :=
       [ ("POST", "/query", QueryRoute queryHandler);
         ("GET", "/health", HealthRoute) ] |}.

(** [New]; the [log.Printf] line is left out. *)
Definition New (cfg : config.Config) : error + Server :=
  let openaiConfig := openai.DefaultConfig "DUMMY_API_KEY" in
  let openaiConfig :=
    {| openai.authToken := openai.authToken openaiConfig;
       openai.BaseURL := config.VLLMBaseURL cfg |} in
  let openaiClient := openai_NewClientWithConfig openaiConfig in
  let httpClient := http_ClientWithTimeout config.DefaultHTTPTimeout in
  let weaviateCfg :=
    {| weaviate.Host := config.WeaviateHost cfg;
       weaviate.Scheme := config.WeaviateScheme cfg |} in
  match weaviate_NewClient weaviateCfg with
  | inl err => inl (Errorf "failed to create Weaviate client: %w" [OErr err])
  | inr weaviateClient =>
      let teiService := services.NewTEIService (config.TEIBaseURL cfg) httpClient in
      let weaviateService :=
        services.NewWeaviateService weaviateClient (config.CollectionName cfg)
          (config.SearchLimit cfg) in
      let vllmService :=
        services.NewVLLMService openaiClient (config.VLLMModelName cfg)
          (config.MaxTokens cfg) in
      let ragService := services.NewRAGService teiService weaviateService vllmService in
      let app := setupApp ragService in
      inr {| app := app; cfg := cfg; ragService := ragService |}
  end.
End server.
End server.

(* ===================================================================== *)
(** ** Vocabulary of the properties *)
(* ===================================================================== *)

(** [strings.Contains(s, substr)] *)
Fixpoint Contains (s substr : string) : bool :=
  String.prefix substr s ||
  match s with
  | EmptyString => false
  | String _ s' => Contains s' substr
  end.

(** Whether the character [c] occurs in [s]. *)
Fixpoint occurs (c : ascii) (s : string) : bool :=
  match s with
  | EmptyString => false
  | String x s' => Ascii.eqb c x || occurs c s'
  end.

(** The strings of a list written one after the other. *)
Definition joined (l : list string) : string := foldr String.append "" l.

(** The ordinal marker that opens a context block. *)
Definition chunkMarker : string := "--- Context Chunk".

(** The sentinel of an empty context. *)
Definition noContext : string := "No relevant context found.".

(** ASCII white space, as [strings.TrimSpace] removes it. *)
Definition isSpace (c : ascii) : bool :=
  let n := nat_of_ascii c in
  (n =? 32)%nat || ((9 <=? n)%nat && (n <=? 13)%nat).

Fixpoint TrimLeft (s : string) : string :=
  match s with
  | EmptyString => EmptyString
  | String c s' => if isSpace c then TrimLeft s' else s
  end.

Fixpoint TrimRight (s : string) : string :=
  match s with
  | EmptyString => EmptyString
  | String c s' =>
      match TrimRight s' with
      | EmptyString => if isSpace c then EmptyString else String c EmptyString
      | t => String c t
      end
  end.

(** [strings.TrimSpace] on ASCII text.  No function of the repository calls
    it; it states the trimmed-length condition on a query. *)
Definition TrimSpace (s : string) : string := TrimRight (TrimLeft s).

Section vocabulary.
Context `{StdLib}.

(** The text of a result item that carries a non-empty string under
    ["text"]; [None] for every other item. *)
Definition itemText (item : value) : option string :=
  match item with
  | VObject m =>
      match m !! "text" with
      | Some (VString s) => if bool_decide (s = "") then None else Some s
      | _ => None
      end
  | _ => None
  end.

(** The block of the passage at 0-based position [i]. *)
Definition contextBlock (i : nat) (text : string) : string :=
  "--- Context Chunk " +:+ Itoa (Z.of_nat i + 1) +:+ " ---" +:+ LF +:+ text +:+ LF +:+ LF.

(** The two fixed parts of the instruction template around the context and
    the part after the query. *)
Definition templateHead : string := Eval cbv in
  "<|begin_of_text|><|start_header_id|>system<|end_header_id|>" +:+ LF +:+
  "Use the following pieces of context to answer the question at the end." +:+ LF +:+
  "If you don't know the answer, just say that you don't know, don't try to make up an answer." +:+ LF +:+
  "Context:" +:+ LF.

Definition templateQuestion : string := Eval cbv in
  LF +:+ "<|eot_id|><|start_header_id|>user<|end_header_id|>" +:+ LF +:+
  "Question:" +:+ LF.

Definition templateTail : string := Eval cbv in
  LF +:+ "<|eot_id|><|start_header_id|>assistant<|end_header_id|>" +:+ LF.

(** The prompt [Query] hands to the generator for given passages. *)
Definition finalPrompt (query : string) (contextChunks : list string) : string :=
  Sprintf services.promptTemplate [OStr (services.buildContext contextChunks); OStr query].

(** The events of a trace that belong to prompt building or generation. *)
Definition afterSearch (e : event) : bool :=
  match e with
  | Invoke PromptBuilder | Invoke Generator | ChatCompletion _ => true
  | _ => false
  end.

(** The stages a trace shows as entered, in the order of entry. *)
Definition invoked (t : list event) : list stage :=
  omap (fun e => match e with Invoke st => Some st | _ => None end) t.

(** The order of the pipeline. *)
Definition pipelineOrder : list stage :=
  [EmbeddingProvider; Retriever; PromptBuilder; Generator].
End vocabulary.

Section requests.
Context `{StdLib}.

(** The request [GetEmbedding] posts for [text], when it can be built. *)
Definition embedRequest (s : services.TEIService) (text : string) : option http.Request :=
  payloadBytes ← maybe inr (json_Marshal
    {| models.Inputs := [text]; models.Truncate := true; models.Normalize := true |});
  req ← maybe inr (http_NewRequestWithContext http.MethodPost
                           (services.baseURL s +:+ "/embed") payloadBytes);
  Some (http.Header_Set req "Content-Type" "application/json").

(** The nearest-neighbour query [SearchSimilar] sends for an embedding. *)
Definition searchRequest (s : services.WeaviateService) (embedding : list float64)
  : graphql.GetBuilder :=
  {| graphql.className := services.collectionName s;
     graphql.fields := [ {| graphql.Name := "text" |} ];
     graphql.nearVector := float32_of_float64 <$> embedding;
     graphql.limit := services.searchLimit s |}.

(** The completion request [GenerateResponse] sends for a prompt. *)
Definition chatRequest (s : services.VLLMService) (prompt : string)
  : openai.ChatCompletionRequest :=
  {| openai.Model := services.modelName s;
     openai.Messages := [ {| openai.Role := "user"; openai.Content := prompt |} ];
     openai.MaxTokens := services.maxTokens s;
     openai.Stop := ["<|eot_id|>"] |}.
End requests.

Section traces.
Context `{StdLib}.

(** The three backing services. *)
Inductive backend : Type :=
| TEI
| Weaviate
| VLLM.

(** The backends a trace shows as called, in the order of the calls. *)
Definition calls (t : list event) : list backend :=
  omap (fun e => match e with
                 | HTTPDo _ => Some TEI
                 | GraphQLDo _ => Some Weaviate
                 | ChatCompletion _ => Some VLLM
                 | _ => None
                 end) t.

(** The bodies a trace shows as written by the handler. *)
Definition written (t : list event) : list models.QueryResponse :=
  omap (fun e => match e with SendJSON body => Some body | _ => None end) t.

(** The variables [config.Load] reads. *)
Definition configVariables : list string :=
  ["VLLM_BASE_URL"; "TEI_BASE_URL"; "VLLM_MODEL_NAME"; "WEAVIATE_HOST";
   "WEAVIATE_SCHEME"; "COLLECTION_NAME"; "SERVER_PORT"].
End traces.

(* ===================================================================== *)
(** ** Stub collaborators

    Deterministic stand-ins for the three backing services and for the
    library calls, used to run the pipeline on concrete inputs. *)
(* ===================================================================== *)

Module stub.
#[export] Instance floats : Floats :=
  {| float64 := Q; float32 := Q; float32_of_float64 := fun x => x |}.

(** Bodies the stub decoder knows: an empty batch, a batch whose first
    vector is empty, a one-vector batch, and a batch whose second vector is
    empty.  Anything else is a decoding error. *)
Definition decode (body : string) : error + models.TEIResponse :=
  if String.eqb body "[]" then inr []
  else if String.eqb body "[[]]" then inr [[]]
  else if String.eqb body "[[],[0.5]]" then inr [[]; [1 # 2]%Q]
  else if String.eqb body "[[0.1,0.2,0.3]]" then inr [[1 # 10; 2 # 10; 3 # 10]%Q]
  else if String.eqb body "[[0.1,0.2,0.3],[]]" then inr [[1 # 10; 2 # 10; 3 # 10]%Q; []]
  else inl (errorString "invalid character looking for beginning of value").

#[export] Instance stdlib : StdLib :=
  {| json_Marshal := fun p => inr (String.concat "," (models.Inputs p));
     http_NewRequestWithContext := fun method url body =>
       inr {| http.Method := method; http.URL := url; http.Header := []; http.Body := body |};
     json_Decode := decode |}.

Definition httpAnswering (r : error + http.Response) : http.Client :=
  {| http.Do := fun _ => r |}.

Definition weaviateAnswering (r : error + models.GraphQLResponse) : graphql.Client :=
  {| graphql.Do := fun _ => r |}.

Definition vllmAnswering (r : error + openai.ChatCompletionResponse) : openai.Client :=
  {| openai.CreateChatCompletion := fun _ => r |}.

Definition ok (body : string) : error + http.Response :=
  inr {| http.StatusCode := 200; http.RespBody := body |}.

Definition timeout : error := errorString "context deadline exceeded".

Definition item (text : string) : value :=
  VObject {[ "text" := VString text ]}.

(** A search response holding [items] under [Get.LlamaIndex]. *)
Definition found (items : list value) : models.GraphQLResponse :=
  {| models.Data := {[ "Get" := VObject {[ "LlamaIndex" := VArray items ]} ]};
     models.Errors := [] |}.

Definition completion (texts : list string) : openai.ChatCompletionResponse :=
  {| openai.Choices :=
       (fun t => {| openai.Message := {| openai.Role := "assistant"; openai.Content := t |} |})
         <$> texts |}.

Definition teiAnswering (r : error + http.Response) : services.TEIService :=
  services.NewTEIService "http://localhost:8082" (httpAnswering r).

Definition searchAnswering (r : error + models.GraphQLResponse) : services.WeaviateService :=
  services.NewWeaviateService (weaviateAnswering r) "LlamaIndex" 3.

Definition generatorAnswering (r : error + openai.ChatCompletionResponse)
  : services.VLLMService :=
  services.NewVLLMService (vllmAnswering r) "microsoft/Phi-3-mini-128k-instruct" 4096.

(** The service wiring of [server.New] with the default configuration,
    over the given client answers. *)
Definition rag (e : error + http.Response) (w : error + models.GraphQLResponse)
    (g : error + openai.ChatCompletionResponse) : services.RAGService :=
  services.NewRAGService (teiAnswering e) (searchAnswering w) (generatorAnswering g).

(** The request [GetEmbedding] posts for [text] under this wiring. *)
Definition embedPost (text : string) : http.Request :=
  {| http.Method := "POST"; http.URL := "http://localhost:8082/embed";
     http.Header := [("Content-Type", "application/json")]; http.Body := text |}.

Definition embedding3 : list Q := [1 # 10; 2 # 10; 3 # 10]%Q.

Definition movieA : string := "Movie A is sci-fi.".
Definition movieB : string := "Movie B is sci-fi.".
Definition movieQuery : string := "Tell me about science fiction movies".
Definition movieAnswer : string := "Both movies are science fiction.".

(** The end-to-end scenario: a 3-dimensional embedding, two passages, one
    completion. *)
Definition movies : services.RAGService :=
  rag (ok "[[0.1,0.2,0.3]]") (inr (found [item movieA; item movieB]))
      (inr (completion [movieAnswer])).

(** The same wiring with a search call that times out. *)
Definition searchDown : services.RAGService :=
  rag (ok "[[0.1,0.2,0.3]]") (inl timeout) (inr (completion [movieAnswer])).

(** Result items of every shape: two usable ones around an object without
    "text", an empty text, a bare string and a number under "text". *)
Definition mixedItems : list value :=
  [item movieA; VObject ∅; item ""; VString "stray";
   VObject {[ "text" := VNumber (1 # 2)%Q ]}; item movieB].

Definition posting (query : string) : fiber.Ctx :=
  {| fiber.BodyParser := inr {| models.Query := query |} |}.
End stub.

(** Further stand-ins: process environments and client constructors. *)
Module fixture.
(** An environment that sets the collection, sets the TEI URL to the empty
    string, and sets two variables the configuration does not read. *)
Definition staging : gmap string string :=
  {[ "COLLECTION_NAME" := "Docs"; "TEI_BASE_URL" := ""; "SEARCH_LIMIT" := "50";
     "MAX_TOKENS" := "1" ]}.

(** Constructors that hand out the stub clients of the end-to-end scenario;
    an empty Weaviate host is refused. *)
#[export] Instance dialer : @Dialer stub.floats :=
  {| openai_NewClientWithConfig := fun _ =>
       stub.vllmAnswering (inr (stub.completion [stub.movieAnswer]));
     http_ClientWithTimeout := fun _ => stub.httpAnswering (stub.ok "[[0.1,0.2,0.3]]");
     weaviate_NewClient := fun c =>
       if String.eqb (weaviate.Host c) "" then inl (errorString "invalid host")
       else inr (stub.weaviateAnswering
                   (inr (stub.found [stub.item stub.movieA; stub.item stub.movieB]))) |}.

(** The response of [stub.found stub.mixedItems] with a second collection,
    a second top-level key and a reported error added. *)
Definition noisy : models.GraphQLResponse :=
  {| models.Data :=
       {[ "Get" := VObject {[ "LlamaIndex" := VArray stub.mixedItems;
                               "Other" := VArray [stub.item "x"] ]};
          "Aggregate" := VNil ]};
     models.Errors := ["deprecated field"] |}.

(** An environment that sets only variables the configuration does not
    read. *)
Definition unread : gmap string string :=
  {[ "SEARCH_LIMIT" := "50"; "MAX_TOKENS" := "1" ]}.


(** The wiring of the scenario with a generator that cannot be reached. *)
Definition generatorDown : services.RAGService :=
  stub.rag (stub.ok "[[0.1,0.2,0.3]]")
    (inr (stub.found [stub.item stub.movieA; stub.item stub.movieB])) (inl stub.timeout).

(** The wiring of the scenario with an embedding service that cannot be
    reached. *)
Definition embeddingDown : services.RAGService :=
  stub.rag (inl stub.timeout)
    (inr (stub.found [stub.item stub.movieA; stub.item stub.movieB]))
    (inr (stub.completion [stub.movieAnswer])).
End fixture.

(* ===================================================================== *)
(** ** Properties *)
(* ===================================================================== *)

(** Unfolds the plumbing of [IO] so that a run reads as nested matches. *)
Ltac io_unfold :=
  unfold http_Do, graphql_Do, openai_CreateChatCompletion, handlers.c_JSON in *;
  unfold emit in *;
  unfold mbind, IO_bind, mret, IO_ret in *;
  cbn beta iota in *.

#[local] Arguments Errorf : simpl never.
#[local] Arguments Sprintf : simpl never.
#[local] Arguments errors_New : simpl never.

Section strings.
Lemma append_cons (x : ascii) (a b : string) : String x a +:+ b = String x (a +:+ b).
Proof. reflexivity. Qed.

Lemma append_nil_r (s : string) : s +:+ "" = s.
Proof. induction s as [|c s IH]; [reflexivity|]. by rewrite append_cons, IH. Qed.

Lemma append_assoc (a b c : string) : (a +:+ b) +:+ c = a +:+ b +:+ c.
Proof. induction a as [|x a IH]; [reflexivity|]. by rewrite !append_cons, IH. Qed.
End strings.

(** Evaluates a formatting call on a literal format string. *)
Ltac fmt_eval :=
  lazy [Errorf Sprintf hasVerbW firstErr formatVerb errors_New Ascii.eqb Bool.eqb orb];
  rewrite ?append_nil_r.

Section formats.
Lemma Errorf_embedding err :
  Errorf "failed to get embedding: %w" [OErr err]
  = wrapError ("failed to get embedding: " +:+ Error err) err.
Proof. fmt_eval. reflexivity. Qed.

Lemma Errorf_search err :
  Errorf "failed to search Weaviate: %w" [OErr err]
  = wrapError ("failed to search Weaviate: " +:+ Error err) err.
Proof. fmt_eval. reflexivity. Qed.

Lemma Errorf_generate err :
  Errorf "failed to generate answer: %w" [OErr err]
  = wrapError ("failed to generate answer: " +:+ Error err) err.
Proof. fmt_eval. reflexivity. Qed.

Lemma Errorf_TEI_request err :
  Errorf "TEI request failed: %w" [OErr err]
  = wrapError ("TEI request failed: " +:+ Error err) err.
Proof. fmt_eval. reflexivity. Qed.

Lemma Errorf_TEI_status code :
  Errorf "TEI server returned status %d" [OInt code]
  = errorString ("TEI server returned status " +:+ Itoa code).
Proof. fmt_eval. reflexivity. Qed.

Lemma Errorf_TEI_decode err :
  Errorf "failed to decode TEI response: %w" [OErr err]
  = wrapError ("failed to decode TEI response: " +:+ Error err) err.
Proof. fmt_eval. reflexivity. Qed.

Lemma Errorf_Weaviate_query err :
  Errorf "Weaviate query failed: %w" [OErr err]
  = wrapError ("Weaviate query failed: " +:+ Error err) err.
Proof. fmt_eval. reflexivity. Qed.

Lemma Errorf_missing_collection name :
  Errorf "invalid GraphQL response: missing collection %s" [OStr name]
  = errorString ("invalid GraphQL response: missing collection " +:+ name).
Proof. fmt_eval. reflexivity. Qed.

Lemma Errorf_vLLM err :
  Errorf "vLLM completion failed: %w" [OErr err]
  = wrapError ("vLLM completion failed: " +:+ Error err) err.
Proof. fmt_eval. reflexivity. Qed.
End formats.

Section embedding.
Context `{StdLib}.
Implicit Types (s : services.TEIService) (t : list event).

(** A successful [GetEmbedding] went through every step. *)
Lemma GetEmbedding_ok s text t v t' :
  services.GetEmbedding s text t = (v, None, t') ->
  exists req resp rest,
    embedRequest s text = Some req /\
    http.Do (services.httpClient s) req = inr resp /\
    http.StatusCode resp = 200 /\
    json_Decode (http.RespBody resp) = inr (v :: rest) /\
    v <> [] /\
    t' = t ++ [HTTPDo req].
Proof.
  unfold services.GetEmbedding, embedRequest. io_unfold.
  destruct (json_Marshal _) as [e|bytes]; cbn; [intros; simplify_eq|].
  destruct (http_NewRequestWithContext _ _ _) as [e|req]; cbn; [intros; simplify_eq|].
  destruct (http.Do _ _) as [e|resp] eqn:Hdo; [intros; simplify_eq|].
  destruct (http.StatusCode resp =? http.StatusOK) eqn:Hst; cbn; [|intros; simplify_eq].
  destruct (json_Decode (http.RespBody resp)) as [e|[|v0 rest]] eqn:Hdec;
    try (intros; simplify_eq; fail).
  destruct v0 as [|x v0]; cbn; intros; simplify_eq.
  eexists _, resp, rest. repeat split; eauto.
  by apply Z.eqb_eq in Hst.
Qed.

(** What a run of [GetEmbedding] adds to the trace: nothing when the
    request cannot be built, the one POST otherwise. *)
Lemma GetEmbedding_trace s text t :
  (services.GetEmbedding s text t).2 =
    t ++ from_option (fun req => [HTTPDo req]) [] (embedRequest s text).
Proof.
  unfold services.GetEmbedding, embedRequest. io_unfold.
  destruct (json_Marshal _) as [e|bytes]; cbn; [by rewrite app_nil_r|].
  destruct (http_NewRequestWithContext _ _ _) as [e|req]; cbn; [by rewrite app_nil_r|].
  destruct (http.Do _ _) as [e|resp]; [done|].
  destruct (negb _); [done|].
  destruct (json_Decode (http.RespBody resp)) as [e|[|v0 rest]]; try done.
  by destruct (length v0 =? 0)%nat.
Qed.

Lemma embedRequest_Some s text req :
  embedRequest s text = Some req ->
  exists bytes req0,
    json_Marshal {| models.Inputs := [text]; models.Truncate := true;
                    models.Normalize := true |} = inr bytes /\
    http_NewRequestWithContext http.MethodPost (services.baseURL s +:+ "/embed") bytes
      = inr req0 /\
    req = http.Header_Set req0 "Content-Type" "application/json".
Proof.
  unfold embedRequest.
  destruct (json_Marshal _) as [e|bytes] eqn:Hm; cbn; [done|].
  destruct (http_NewRequestWithContext _ _ _) as [e|req0] eqn:Hr; cbn; [done|].
  intros [= <-]. by exists bytes, req0.
Qed.

(** The steps of [GetEmbedding] after the POST, as a function of what the
    client answered. *)
Lemma GetEmbedding_run s text t req :
  embedRequest s text = Some req ->
  services.GetEmbedding s text t =
    (match http.Do (services.httpClient s) req with
     | inl err => ([], Some (wrapError ("TEI request failed: " +:+ Error err) err))
     | inr resp =>
         if negb (http.StatusCode resp =? 200) then
           ([], Some (errorString ("TEI server returned status "
                                   +:+ Itoa (http.StatusCode resp))))
         else
           match json_Decode (http.RespBody resp) with
           | inl err => ([], Some (wrapError ("failed to decode TEI response: "
                                              +:+ Error err) err))
           | inr [] | inr ([] :: _) =>
               ([], Some (errorString "empty embedding response from TEI"))
           | inr (v :: _) => (v, None)
           end
     end, t ++ [HTTPDo req]).
Proof.
  intros (bytes & req0 & Hm & Hr & ->)%embedRequest_Some.
  unfold services.GetEmbedding. io_unfold. rewrite Hm, Hr.
  destruct (http.Do _ _) as [e|resp]; [by rewrite Errorf_TEI_request|].
  change http.StatusOK with 200.
  destruct (negb _); [by rewrite Errorf_TEI_status|].
  destruct (json_Decode (http.RespBody resp)) as [e|[|[|x v] rest]];
    [by rewrite Errorf_TEI_decode|done..].
Qed.
End embedding.

Section retrieval.
Context `{StdLib}.
Implicit Types (s : services.WeaviateService) (t : list event) (items : list value).

Lemma appendChunk_itemText (chunks : list string) (item : value) :
  services.appendChunk chunks item = chunks ++ option_list (itemText item).
Proof.
  unfold services.appendChunk, itemText, index.
  destruct item as [| | | | |m]; cbn; rewrite ?app_nil_r; try done.
  destruct (m !! "text") as [[| | |text| |]|]; cbn; rewrite ?app_nil_r; try done.
  rewrite bool_decide_not.
  by destruct (bool_decide (text = "")); cbn; rewrite ?app_nil_r.
Qed.

(** [itemText] keeps exactly the objects with a non-empty string under
    "text". *)
Lemma itemText_Some (item : value) (text : string) :
  itemText item = Some text <->
  exists m, item = VObject m /\ m !! "text" = Some (VString text) /\ text <> "".
Proof.
  unfold itemText. split.
  - destruct item as [| | | | |m]; try done.
    destruct (m !! "text") as [[| | |s| |]|] eqn:Hm; try done.
    case_bool_decide; [done|]. intros [= ->]. by exists m.
  - intros (m & -> & -> & Hne). by rewrite bool_decide_eq_false_2.
Qed.

(** The loop over the items collects the usable texts, in order. *)
Lemma foldl_appendChunk (chunks : list string) items :
  foldl services.appendChunk chunks items = chunks ++ omap itemText items.
Proof.
  revert chunks. induction items as [|item items IH]; intros chunks; cbn.
  - by rewrite app_nil_r.
  - rewrite IH, appendChunk_itemText, <-app_assoc. f_equal.
    by destruct (itemText item).
Qed.

Lemma SearchSimilar_run s (embedding : list float64) t :
  services.SearchSimilar s embedding t =
    (match graphql.Do (services.client s) (searchRequest s embedding) with
     | inl err => ([], Some (wrapError ("Weaviate query failed: " +:+ Error err) err))
     | inr resp => services.extractTextChunks (models.Data resp) (services.collectionName s)
     end, t ++ [GraphQLDo (searchRequest s embedding)]).
Proof.
  unfold services.SearchSimilar, searchRequest. io_unfold.
  destruct (graphql.Do _ _) as [e|resp]; [by rewrite Errorf_Weaviate_query|done].
Qed.
End retrieval.

Section generation.
Context `{StdLib}.

Lemma GenerateResponse_run (s : services.VLLMService) (prompt : string) (t : list event) :
  services.GenerateResponse s prompt t =
    (match openai.CreateChatCompletion (services.vllm_client s) (chatRequest s prompt) with
     | inl err => ("", Some (wrapError ("vLLM completion failed: " +:+ Error err) err))
     | inr resp =>
         match openai.Choices resp with
         | [] => ("", Some (errorString "no completion choices returned from vLLM"))
         | choice :: _ => (openai.Content (openai.Message choice), None)
         end
     end, t ++ [ChatCompletion (chatRequest s prompt)]).
Proof.
  unfold services.GenerateResponse, chatRequest. io_unfold.
  change openai.ChatMessageRoleUser with "user".
  destruct (openai.CreateChatCompletion _ _) as [e|resp]; [by rewrite Errorf_vLLM|].
  by destruct (openai.Choices resp).
Qed.
End generation.

Section pipeline.
Context `{StdLib}.
Implicit Types (s : services.RAGService) (t : list event).

(** What a stage returns does not depend on the trace it starts from. *)
Lemma GetEmbedding_result (e : services.TEIService) text t t' :
  (services.GetEmbedding e text t).1 = (services.GetEmbedding e text t').1.
Proof.
  destruct (embedRequest e text) as [req|] eqn:Hreq.
  - by rewrite !(GetEmbedding_run _ _ _ req Hreq).
  - unfold embedRequest in Hreq. unfold services.GetEmbedding. io_unfold.
    destruct (json_Marshal _) as [?|bytes]; cbn in *; [done|].
    by destruct (http_NewRequestWithContext _ _ _).
Qed.

Lemma SearchSimilar_result (w : services.WeaviateService) (embedding : list float64) t t' :
  (services.SearchSimilar w embedding t).1 = (services.SearchSimilar w embedding t').1.
Proof. by rewrite !SearchSimilar_run. Qed.

Lemma GenerateResponse_result (g : services.VLLMService) prompt t t' :
  (services.GenerateResponse g prompt t).1 = (services.GenerateResponse g prompt t').1.
Proof. by rewrite !GenerateResponse_run. Qed.

(** [Query] as the sequence of its stages. *)
Lemma Query_run s query t :
  services.Query s query t =
    let '(embedding, err, t1) :=
      services.GetEmbedding (services.tei s) query (t ++ [Invoke EmbeddingProvider]) in
    match err with
    | Some err => ("", Some (wrapError ("failed to get embedding: " +:+ Error err) err), t1)
    | None =>
    let '(contextChunks, err, t2) :=
      services.SearchSimilar (services.weaviate s) embedding (t1 ++ [Invoke Retriever]) in
    match err with
    | Some err => ("", Some (wrapError ("failed to search Weaviate: " +:+ Error err) err), t2)
    | None =>
    let '(answer, err, t3) :=
      services.GenerateResponse (services.vllm s) (finalPrompt query contextChunks)
        ((t2 ++ [Invoke PromptBuilder]) ++ [Invoke Generator]) in
    match err with
    | Some err => ("", Some (wrapError ("failed to generate answer: " +:+ Error err) err), t3)
    | None => (answer, None, t3)
    end end end.
Proof.
  unfold services.Query, finalPrompt. io_unfold.
  destruct (services.GetEmbedding _ _ _) as [[embedding [err|]] t1];
    [by rewrite Errorf_embedding|].
  destruct (services.SearchSimilar _ _ _) as [[chunks [err|]] t2];
    [by rewrite Errorf_search|].
  destruct (services.GenerateResponse _ _ _) as [[answer [err|]] t3];
    [by rewrite Errorf_generate|done].
Qed.

(** What a run of [Query] adds to the trace, by how far it got. *)
Lemma Query_trace s query t :
  exists evs, (services.Query s query t).2 = t ++ evs /\
    ((services.Query s query t).1.2 <> None /\ invoked evs = [EmbeddingProvider]
       /\ Forall (fun e => afterSearch e = false) evs
     \/ (services.Query s query t).1.2 <> None
       /\ invoked evs = [EmbeddingProvider; Retriever]
       /\ Forall (fun e => afterSearch e = false) evs
     \/ invoked evs = pipelineOrder).
Proof.
  rewrite Query_run.
  pose proof (GetEmbedding_trace (services.tei s) query (t ++ [Invoke EmbeddingProvider])) as Ht1.
  destruct (services.GetEmbedding _ _ _) as [[embedding [err|]] t1]; cbn in Ht1; subst t1.
  { eexists. rewrite <-app_assoc. split; [done|]. left. split; [done|].
    destruct (embedRequest _ _); cbn; split; (done || by repeat constructor). }
  rewrite SearchSimilar_run.
  destruct (match graphql.Do _ _ with inl _ => _ | inr _ => _ end) as [chunks [err|]].
  { eexists. rewrite <-!app_assoc. split; [done|]. right; left. split; [done|].
    destruct (embedRequest _ _); cbn; split; (done || by repeat constructor). }
  rewrite GenerateResponse_run.
  eexists. split; [|right; right].
  - destruct (match openai.CreateChatCompletion _ _ with inl _ => _ | inr _ => _ end)
      as [answer [err|]]; cbn; by rewrite <-!app_assoc.
  - by destruct (embedRequest _ _).
Qed.
End pipeline.

Section orchestrator.
Context `{StdLib}.
Implicit Types (s : services.RAGService) (t : list event).

(** C1. [Query] enters its stages in pipeline order and stops at the first
    failure.  When the embedding succeeded and the search stage returns an
    error [err], [Query] returns the empty answer and [err] wrapped under
    the stage text "failed to search Weaviate: "; the run consists of the
    embedding request and the search request only: the prompt builder and
    the generator are not entered and no completion request is sent.  When
    the search call itself failed with [cause], [err] is [cause] wrapped
    under "Weaviate query failed: ". *)
Theorem Query_search_failure s query t :
  (invoked (drop (length t) (services.Query s query t).2) `prefix_of` pipelineOrder
   /\ ((services.Query s query t).1.2 = None ->
       invoked (drop (length t) (services.Query s query t).2) = pipelineOrder))
  /\ forall embedding chunks err,
      (services.GetEmbedding (services.tei s) query t).1 = (embedding, None) ->
      (services.SearchSimilar (services.weaviate s) embedding t).1 = (chunks, Some err) ->
      (exists req,
          embedRequest (services.tei s) query = Some req /\
          services.Query s query t =
            ("", Some (wrapError ("failed to search Weaviate: " +:+ Error err) err),
             t ++ [Invoke EmbeddingProvider; HTTPDo req; Invoke Retriever;
                   GraphQLDo (searchRequest (services.weaviate s) embedding)]))
      /\ Forall (fun e => afterSearch e = false)
           (drop (length t) (services.Query s query t).2)
      /\ (forall cause,
            graphql.Do (services.client (services.weaviate s))
              (searchRequest (services.weaviate s) embedding) = inl cause ->
            err = wrapError ("Weaviate query failed: " +:+ Error cause) cause).
Proof.
  split.
  - destruct (Query_trace s query t) as (evs & Hevs & Hcase).
    rewrite Hevs, drop_app_length.
    destruct Hcase as [(Herr & Hi & _)|[(Herr & Hi & _)|Hi]]; rewrite Hi.
    + split; [by exists [Retriever; PromptBuilder; Generator]|done].
    + split; [by exists [PromptBuilder; Generator]|done].
    + done.
  - intros embedding chunks err Hemb Hsearch.
    rewrite (GetEmbedding_result _ _ _ (t ++ [Invoke EmbeddingProvider])) in Hemb.
    destruct (GetEmbedding_ok (services.tei s) query (t ++ [Invoke EmbeddingProvider])
                embedding (services.GetEmbedding (services.tei s) query
                             (t ++ [Invoke EmbeddingProvider])).2)
      as (req & resp & rest & Hreq & _ & _ & _ & _ & Ht1).
    { by rewrite <-Hemb, <-!surjective_pairing. }
    assert (Hq : services.Query s query t =
              ("", Some (wrapError ("failed to search Weaviate: " +:+ Error err) err),
               t ++ [Invoke EmbeddingProvider; HTTPDo req; Invoke Retriever;
                     GraphQLDo (searchRequest (services.weaviate s) embedding)])).
    { rewrite Query_run.
      destruct (services.GetEmbedding _ _ _) as [[emb' err'] t1].
      cbn in Hemb, Ht1. simplify_eq.
      rewrite SearchSimilar_run in Hsearch |- *. cbn in Hsearch.
      rewrite Hsearch. by rewrite <-!app_assoc. }
    split; [by exists req|]. split.
    + rewrite Hq. cbn [snd]. rewrite drop_app_length. by repeat constructor.
    + intros cause Hdo. rewrite SearchSimilar_run, Hdo in Hsearch. by simplify_eq/=.
Qed.

(** C10. Whenever [Query] returns an error the answer returned with it is
    the empty string, and a failure of any stage makes [Query] return an
    error: the stage's error wrapped under the stage text, next to the
    empty answer. *)
Theorem Query_failure_answer_empty s query t :
  (forall err, (services.Query s query t).1.2 = Some err ->
               (services.Query s query t).1.1 = "")
  /\ (forall embedding err,
        (services.GetEmbedding (services.tei s) query t).1 = (embedding, Some err) ->
        (services.Query s query t).1 =
          ("", Some (wrapError ("failed to get embedding: " +:+ Error err) err)))
  /\ (forall embedding chunks err,
        (services.GetEmbedding (services.tei s) query t).1 = (embedding, None) ->
        (services.SearchSimilar (services.weaviate s) embedding t).1 = (chunks, Some err) ->
        (services.Query s query t).1 =
          ("", Some (wrapError ("failed to search Weaviate: " +:+ Error err) err)))
  /\ (forall embedding chunks answer err,
        (services.GetEmbedding (services.tei s) query t).1 = (embedding, None) ->
        (services.SearchSimilar (services.weaviate s) embedding t).1 = (chunks, None) ->
        (services.GenerateResponse (services.vllm s) (finalPrompt query chunks) t).1
          = (answer, Some err) ->
        (services.Query s query t).1 =
          ("", Some (wrapError ("failed to generate answer: " +:+ Error err) err))).
Proof.
  rewrite Query_run.
  pose proof (GetEmbedding_result (services.tei s) query t
                (t ++ [Invoke EmbeddingProvider])) as He.
  destruct (services.GetEmbedding (services.tei s) query (t ++ _)) as [[emb e1] t1].
  cbn [fst] in He. rewrite He. clear He.
  destruct e1 as [e1|]; [by repeat split; intros; simplify_eq/=|].
  pose proof (SearchSimilar_result (services.weaviate s) emb t
                (t1 ++ [Invoke Retriever])) as Hs.
  destruct (services.SearchSimilar (services.weaviate s) emb (t1 ++ _)) as [[ch e2] t2].
  cbn [fst] in Hs.
  destruct e2 as [e2|].
  { repeat split; intros; simplify_eq/=; try done.
    all: match goal with Hx : _ = (_, _) |- _ => rewrite Hs in Hx; by simplify_eq end. }
  pose proof (GenerateResponse_result (services.vllm s) (finalPrompt query ch) t
                ((t2 ++ [Invoke PromptBuilder]) ++ [Invoke Generator])) as Hg.
  destruct (services.GenerateResponse (services.vllm s) (finalPrompt query ch) (_ ++ _))
    as [[ans e3] t3].
  cbn [fst] in Hg.
  destruct e3 as [e3|]; repeat split; intros; simplify_eq/=; try done.
  all: match goal with Hx : (services.SearchSimilar _ _ _).1 = _ |- _ =>
         rewrite Hs in Hx; simplify_eq end.
  all: match goal with Hx : (services.GenerateResponse _ _ _).1 = _ |- _ =>
         rewrite Hg in Hx; by simplify_eq end.
Qed.
End orchestrator.

Section embedding_claims.
Context `{StdLib}.
Implicit Types (s : services.TEIService) (t : list event).

Lemma GetEmbedding_empty s text t req resp (response : models.TEIResponse) :
  embedRequest s text = Some req ->
  http.Do (services.httpClient s) req = inr resp ->
  http.StatusCode resp = 200 ->
  json_Decode (http.RespBody resp) = inr response ->
  response = [] \/ response !! 0%nat = Some [] ->
  services.GetEmbedding s text t =
    ([], Some (errorString "empty embedding response from TEI"), t ++ [HTTPDo req]).
Proof.
  intros Hreq Hdo Hst Hdec Hempty.
  rewrite (GetEmbedding_run _ _ _ req Hreq), Hdo, Hst, Hdec. cbn.
  destruct Hempty as [->|Hfirst]; [done|].
  destruct response as [|v rest]; [done|]. by simplify_eq/=.
Qed.

(** C6. When the decoded embedding response is an empty batch, or its first
    vector is empty, [GetEmbedding] returns no embedding and the error
    "empty embedding response from TEI"; and whenever [GetEmbedding] returns
    without error, the embedding it returns is not empty. *)
Theorem GetEmbedding_never_empty s text t :
  (forall req resp (response : models.TEIResponse),
      embedRequest s text = Some req ->
      http.Do (services.httpClient s) req = inr resp ->
      http.StatusCode resp = 200 ->
      json_Decode (http.RespBody resp) = inr response ->
      response = [] \/ response !! 0%nat = Some [] ->
      services.GetEmbedding s text t =
        ([], Some (errorString "empty embedding response from TEI"), t ++ [HTTPDo req]))
  /\ (forall embedding,
        (services.GetEmbedding s text t).1 = (embedding, None) -> embedding <> []).
Proof.
  split; [apply GetEmbedding_empty|].
  intros embedding Hok.
  destruct (GetEmbedding_ok s text t embedding (services.GetEmbedding s text t).2)
    as (? & ? & ? & _ & _ & _ & _ & Hne & _); [|done].
  by rewrite <-Hok, <-!surjective_pairing.
Qed.

(** C7, as the code has it.  Once the request is built, [GetEmbedding]
    fails when the network call errors (the cause wrapped under "TEI
    request failed: "), when the status is not 200, and when the response
    batch is empty or its first vector is empty.  Only the first vector is
    looked at: a batch with a non-empty first vector succeeds with that
    vector, whatever follows it. *)
Theorem GetEmbedding_unavailable s text t req :
  embedRequest s text = Some req ->
  (forall err,
      http.Do (services.httpClient s) req = inl err ->
      services.GetEmbedding s text t =
        ([], Some (wrapError ("TEI request failed: " +:+ Error err) err),
         t ++ [HTTPDo req]))
  /\ (forall resp,
        http.Do (services.httpClient s) req = inr resp ->
        http.StatusCode resp <> 200 ->
        services.GetEmbedding s text t =
          ([], Some (errorString ("TEI server returned status "
                                  +:+ Itoa (http.StatusCode resp))),
           t ++ [HTTPDo req]))
  /\ (forall resp (response : models.TEIResponse),
        http.Do (services.httpClient s) req = inr resp ->
        http.StatusCode resp = 200 ->
        json_Decode (http.RespBody resp) = inr response ->
        response = [] \/ response !! 0%nat = Some [] ->
        services.GetEmbedding s text t =
          ([], Some (errorString "empty embedding response from TEI"),
           t ++ [HTTPDo req]))
  /\ (forall resp (first : list float64) (others : list (list float64)),
        http.Do (services.httpClient s) req = inr resp ->
        http.StatusCode resp = 200 ->
        json_Decode (http.RespBody resp) = inr (first :: others) ->
        first <> [] ->
        services.GetEmbedding s text t = (first, None, t ++ [HTTPDo req])).
Proof.
  intros Hreq. repeat split.
  - intros err Hdo. by rewrite (GetEmbedding_run _ _ _ req Hreq), Hdo.
  - intros resp Hdo Hst. rewrite (GetEmbedding_run _ _ _ req Hreq), Hdo.
    by apply Z.eqb_neq in Hst as ->.
  - intros resp response. by apply GetEmbedding_empty.
  - intros resp first others Hdo Hst Hdec Hne.
    rewrite (GetEmbedding_run _ _ _ req Hreq), Hdo, Hst, Hdec. cbn.
    by destruct first.
Qed.
End embedding_claims.

Section generation_claims.
Context `{StdLib}.

(** C8. When the completion call returns a response, [GenerateResponse]
    returns the content of the first choice without error, and fails with
    "no completion choices returned from vLLM" when there is no choice. *)
Theorem GenerateResponse_first_choice (s : services.VLLMService) (prompt : string)
    (t : list event) (resp : openai.ChatCompletionResponse) :
  openai.CreateChatCompletion (services.vllm_client s) (chatRequest s prompt) = inr resp ->
  (forall choice others,
      openai.Choices resp = choice :: others ->
      services.GenerateResponse s prompt t =
        (openai.Content (openai.Message choice), None,
         t ++ [ChatCompletion (chatRequest s prompt)]))
  /\ (openai.Choices resp = [] ->
      services.GenerateResponse s prompt t =
        ("", Some (errorString "no completion choices returned from vLLM"),
         t ++ [ChatCompletion (chatRequest s prompt)])).
Proof.
  intros Hdo. rewrite GenerateResponse_run, Hdo.
  split; [intros choice others ->|intros ->]; done.
Qed.
End generation_claims.

Section retrieval_claims.
Context `{StdLib}.
Implicit Types (s : services.WeaviateService) (t : list event) (items : list value).

Lemma extractTextChunks_valid (data get : gmap string value) (name : string) items :
  data !! "Get" = Some (VObject get) ->
  get !! name = Some (VArray items) ->
  services.extractTextChunks data name = (omap itemText items, None).
Proof.
  intros Hget Hclass. unfold services.extractTextChunks, index.
  rewrite Hget. cbn. rewrite Hclass. cbn. by rewrite foldl_appendChunk.
Qed.

(** C3. When the search call returns a response that holds an object under
    "Get" and, in it, a list under the collection name, [SearchSimilar]
    returns without error the non-empty string "text" fields of the items
    of that list, in the order of the list.  An item without such a field
    changes nothing else in the result, and an empty list gives an empty
    passage sequence, still without error. *)
Theorem SearchSimilar_valid_response s (embedding : list float64) t
    (resp : models.GraphQLResponse) (get : gmap string value) items :
  graphql.Do (services.client s) (searchRequest s embedding) = inr resp ->
  models.Data resp !! "Get" = Some (VObject get) ->
  get !! services.collectionName s = Some (VArray items) ->
  services.SearchSimilar s embedding t =
    (omap itemText items, None, t ++ [GraphQLDo (searchRequest s embedding)])
  /\ (forall before item after,
        items = before ++ item :: after -> itemText item = None ->
        (services.SearchSimilar s embedding t).1 =
          (omap itemText before ++ omap itemText after, None))
  /\ (items = [] -> (services.SearchSimilar s embedding t).1 = ([], None)).
Proof.
  intros Hdo Hget Hclass.
  assert (Hrun : services.SearchSimilar s embedding t =
            (omap itemText items, None, t ++ [GraphQLDo (searchRequest s embedding)])).
  { rewrite SearchSimilar_run, Hdo. by rewrite (extractTextChunks_valid _ get _ items). }
  rewrite Hrun. repeat split.
  - intros before item after -> Hnone. cbn.
    by rewrite omap_app; cbn; rewrite Hnone.
  - by intros ->.
Qed.

(** C5. When the search call returns a response in which "Get" is missing
    or is not an object, or in which the collection name is missing from
    that object or is not a list, [SearchSimilar] returns no passage and an
    error that says which of the two is missing. *)
Theorem SearchSimilar_malformed_response s (embedding : list float64) t
    (resp : models.GraphQLResponse) :
  graphql.Do (services.client s) (searchRequest s embedding) = inr resp ->
  ((forall get, models.Data resp !! "Get" <> Some (VObject get)) ->
   services.SearchSimilar s embedding t =
     ([], Some (errorString "invalid GraphQL response: missing Get field"),
      t ++ [GraphQLDo (searchRequest s embedding)]))
  /\ (forall get,
        models.Data resp !! "Get" = Some (VObject get) ->
        (forall items, get !! services.collectionName s <> Some (VArray items)) ->
        services.SearchSimilar s embedding t =
          ([], Some (errorString ("invalid GraphQL response: missing collection "
                                  +:+ services.collectionName s)),
           t ++ [GraphQLDo (searchRequest s embedding)])).
Proof.
  intros Hdo. rewrite SearchSimilar_run, Hdo.
  unfold services.extractTextChunks, index. split.
  - intros Hno. destruct (models.Data resp !! "Get") as [[| | | | |get]|]; cbn; try done.
    by destruct (Hno get).
  - intros get -> Hno. cbn.
    destruct (get !! services.collectionName s) as [[| | | |items|]|]; cbn;
      rewrite ?Errorf_missing_collection; try done.
    by destruct (Hno items).
Qed.
End retrieval_claims.

Section boundary_claims.
Context `{StdLib}.

(** A request with a non-empty query is handed to [Query] as it is; the
    answer is written only when [Query] returns no error. *)
Lemma Handle_nonempty_query (h : handlers.QueryHandler) (c : fiber.Ctx) (t : list event)
    (req : models.QueryRequest) :
  fiber.BodyParser c = inr req ->
  models.Query req <> "" ->
  handlers.Handle h c t =
    let '(answer, err, t') := services.Query (handlers.ragService h) (models.Query req) t in
    match err with
    | Some err => (Some err, t')
    | None => (None, t' ++ [SendJSON {| models.Response := answer |}])
    end.
Proof.
  intros Hparse Hne. unfold handlers.Handle. rewrite Hparse.
  rewrite bool_decide_eq_false_2 by done. io_unfold.
  by destruct (services.Query _ _ _) as [[answer [err|]] t'].
Qed.

(** C9, as the code has it.  A request whose parsed query is the empty
    string is answered with the error 400 "Query cannot be empty", and
    nothing is added to the trace: [Query] is not called.  The comparison
    is with the empty string, without trimming. *)
Theorem Handle_empty_query (h : handlers.QueryHandler) (c : fiber.Ctx) (t : list event)
    (req : models.QueryRequest) :
  fiber.BodyParser c = inr req ->
  models.Query req = "" ->
  handlers.Handle h c t = (Some (fiberError 400 "Query cannot be empty"), t)
  /\ server.customErrorHandler (fiberError 400 "Query cannot be empty")
     = (400, {| models.Error := "Query cannot be empty" |}).
Proof.
  intros Hparse Hempty. split; [|done].
  unfold handlers.Handle. rewrite Hparse, Hempty. by io_unfold.
Qed.
End boundary_claims.

Section prompt_claims.
Implicit Types (query : string) (chunks : list string).

Lemma Sprintf_chunk (n : nat) (chunk : string) :
  Sprintf services.chunkFormat [OInt (Z.of_nat n + 1); OStr chunk] = contextBlock n chunk.
Proof. unfold contextBlock. fmt_eval. reflexivity. Qed.

Lemma Sprintf_template (context query : string) :
  Sprintf services.promptTemplate [OStr context; OStr query]
  = templateHead +:+ context +:+ templateQuestion +:+ query +:+ templateTail.
Proof. fmt_eval. reflexivity. Qed.

(** The loop of [buildContext] started at index [n] appends the blocks
    numbered from [n + 1] on. *)
Lemma buildContext_range_blocks (n : nat) chunks (builder : string) :
  services.buildContext_range (Z.of_nat n) chunks builder
  = builder +:+ joined (imap (fun k => contextBlock (n + k)) chunks).
Proof.
  revert n builder. induction chunks as [|chunk rest IH]; intros n builder.
  - cbn. by rewrite append_nil_r.
  - cbn [services.buildContext_range]. rewrite Sprintf_chunk.
    replace (Z.of_nat n + 1) with (Z.of_nat (S n)) by lia.
    rewrite IH, append_assoc. cbn [imap joined foldr]. rewrite Nat.add_0_r.
    do 3 f_equal. apply imap_ext. intros k x _. cbn. f_equal. lia.
Qed.

Lemma buildContext_blocks chunks :
  chunks <> [] -> services.buildContext chunks = joined (imap contextBlock chunks).
Proof.
  intros Hne. unfold services.buildContext.
  destruct chunks as [|chunk rest]; [done|]. cbn [length Nat.eqb].
  by rewrite (buildContext_range_blocks 0).
Qed.

(** C2. For a non-empty passage sequence, the context is the blocks of the
    passages one after the other, the block of the passage at position N
    (counted from 1) being "--- Context Chunk N ---", a line feed, the
    passage text and two line feeds; the prompt is the head of the
    template, this context, and the query between the question part and the
    tail of the template.  For two passages the context is the block
    numbered 1 with the first text followed by the block numbered 2 with
    the second text, and nothing else. *)
Theorem prompt_numbered_blocks query chunks :
  chunks <> [] ->
  services.buildContext chunks = joined (imap contextBlock chunks)
  /\ (forall (i : nat) text, chunks !! i = Some text ->
        imap contextBlock chunks !! i =
          Some ("--- Context Chunk " +:+ Itoa (Z.of_nat i + 1) +:+ " ---" +:+ LF
                +:+ text +:+ LF +:+ LF))
  /\ finalPrompt query chunks =
       templateHead +:+ services.buildContext chunks
       +:+ templateQuestion +:+ query +:+ templateTail
  /\ (forall p1 p2, chunks = [p1; p2] ->
        services.buildContext chunks =
          "--- Context Chunk 1 ---" +:+ LF +:+ p1 +:+ LF +:+ LF +:+
          "--- Context Chunk 2 ---" +:+ LF +:+ p2 +:+ LF +:+ LF).
Proof.
  intros Hne. split; [by apply buildContext_blocks|]. split; [|split].
  - intros i text Hi. by rewrite list_lookup_imap, Hi.
  - apply Sprintf_template.
  - intros p1 p2 ->. rewrite buildContext_blocks by done.
    cbn [imap joined foldr]. unfold contextBlock, compose. cbn [Z.of_nat Z.add].
    rewrite append_nil_r, !append_assoc.
    reflexivity.
Qed.
End prompt_claims.

Section containment.
Implicit Types (s a b m : string) (c x : ascii).

Lemma Contains_cons x s m :
  Contains (String x s) m = String.prefix m (String x s) || Contains s m.
Proof. reflexivity. Qed.

Lemma prefix_cons_ne c m x s : Ascii.eqb c x = false -> String.prefix (String c m) (String x s) = false.
Proof. intros Hne. cbn. destruct (ascii_dec c x) as [->|]; [|done]. by rewrite Ascii.eqb_refl in Hne. Qed.

(** Text in which the first character of [m] does not occur cannot hold
    the start of an occurrence of [m]. *)
Lemma Contains_skip c m a s :
  occurs c a = false -> Contains (a +:+ s) (String c m) = Contains s (String c m).
Proof.
  induction a as [|x a IH]; [done|]. cbn [occurs]. intros [Hx Ha]%orb_false_iff.
  by rewrite append_cons, Contains_cons, prefix_cons_ne, IH.
Qed.

(** A character that does not occur in [m] ends every attempt to match
    [m] across it. *)
Lemma prefix_stop m s x b :
  occurs x m = false -> String.prefix m (s +:+ String x b) = String.prefix m s.
Proof.
  revert m. induction s as [|d s IH]; intros m Hx.
  - change ("" +:+ String x b) with (String x b).
    destruct m as [|c m]; [done|]. cbn [occurs] in Hx.
    apply orb_false_iff in Hx as [Hx _]. rewrite Ascii.eqb_sym in Hx.
    by rewrite (prefix_cons_ne c m x b Hx).
  - destruct m as [|c m]; [done|]. rewrite append_cons. cbn [String.prefix].
    destruct (ascii_dec c d); [|done]. apply IH.
    cbn [occurs] in Hx. by apply orb_false_iff in Hx as [_ ?].
Qed.

Lemma Contains_stop c m s x b :
  occurs x (String c m) = false ->
  Contains (s +:+ String x b) (String c m)
  = Contains s (String c m) || Contains (String x b) (String c m).
Proof.
  intros Hx. induction s as [|d s IH]; [done|].
  rewrite append_cons, !Contains_cons, <-append_cons, prefix_stop by done.
  by rewrite IH, orb_assoc.
Qed.
End containment.

Section empty_context.
(** C4, as the code has it.  With no passage the context section is the
    sentinel "No relevant context found."; the template around it holds no
    "--- Context Chunk" marker, so the prompt holds one exactly when the
    query text itself does. *)
Theorem prompt_without_passages (query : string) :
  services.buildContext [] = noContext
  /\ finalPrompt query [] =
       templateHead +:+ noContext +:+ templateQuestion +:+ query +:+ templateTail
  /\ Contains (templateHead +:+ noContext +:+ templateQuestion) chunkMarker = false
  /\ Contains templateTail chunkMarker = false
  /\ Contains (finalPrompt query []) chunkMarker = Contains query chunkMarker.
Proof.
  split; [done|]. split; [apply Sprintf_template|]. split; [by vm_compute|].
  split; [by vm_compute|].
  unfold finalPrompt. rewrite Sprintf_template.
  change (services.buildContext []) with noContext.
  rewrite <-!append_assoc.
  let lit := eval vm_compute in ((templateHead +:+ noContext) +:+ templateQuestion) in
  change ((templateHead +:+ noContext) +:+ templateQuestion) with lit.
  rewrite append_assoc. unfold chunkMarker.
  rewrite Contains_skip by (by vm_compute).
  let lit := eval vm_compute in templateTail in change templateTail with lit.
  rewrite Contains_stop by (by vm_compute).
  rewrite orb_false_r. reflexivity.
Qed.
End empty_context.

(* ===================================================================== *)
(** ** The properties on the stub collaborators *)
(* ===================================================================== *)

Section instances.
Import stub.

Lemma Query_search_failure_witness :
  (services.Query searchDown movieQuery []).1 =
    ("", Some (wrapError
                 "failed to search Weaviate: Weaviate query failed: context deadline exceeded"
                 (wrapError "Weaviate query failed: context deadline exceeded" timeout)))
  /\ invoked (services.Query searchDown movieQuery []).2 = [EmbeddingProvider; Retriever]
  /\ Forall (fun e => afterSearch e = false) (services.Query searchDown movieQuery []).2.
Proof.
  destruct (Query_search_failure searchDown movieQuery []) as [_ Hfail].
  destruct (Hfail embedding3 []
              (wrapError "Weaviate query failed: context deadline exceeded" timeout)
              eq_refl eq_refl) as ((req & Hreq & Hq) & Hno & _).
  injection Hreq as <-.
  rewrite Hq. repeat split. exact Hno.
Defined.

Lemma prompt_numbered_blocks_witness :
  services.buildContext [movieA; movieB] =
    "--- Context Chunk 1 ---" +:+ LF +:+ "Movie A is sci-fi." +:+ LF +:+ LF +:+
    "--- Context Chunk 2 ---" +:+ LF +:+ "Movie B is sci-fi." +:+ LF +:+ LF
  /\ finalPrompt movieQuery [movieA; movieB] =
       templateHead +:+ services.buildContext [movieA; movieB]
       +:+ templateQuestion +:+ movieQuery +:+ templateTail.
Proof.
  assert (Hne : [movieA; movieB] <> []) by discriminate.
  destruct (prompt_numbered_blocks movieQuery [movieA; movieB] Hne)
    as (_ & _ & Hprompt & Htwo).
  split; [exact (Htwo movieA movieB eq_refl)|exact Hprompt].
Defined.

Lemma SearchSimilar_valid_response_witness :
  services.SearchSimilar (searchAnswering (inr (found mixedItems))) embedding3 [] =
    ([movieA; movieB], None,
     [GraphQLDo (searchRequest (searchAnswering (inr (found mixedItems))) embedding3)]).
Proof.
  destruct (SearchSimilar_valid_response
              (searchAnswering (inr (found mixedItems))) embedding3 []
              (found mixedItems) {[ "LlamaIndex" := VArray mixedItems ]} mixedItems
              eq_refl eq_refl eq_refl) as (Hrun & _ & _).
  exact Hrun.
Defined.

Lemma SearchSimilar_malformed_response_witness :
  services.SearchSimilar
      (searchAnswering (inr {| models.Data := ∅; models.Errors := ["no such class"] |}))
      embedding3 [] =
    ([], Some (errorString "invalid GraphQL response: missing Get field"),
     [GraphQLDo (searchRequest (searchAnswering (inr (found []))) embedding3)])
  /\ (services.SearchSimilar
        (searchAnswering (inr {| models.Data := {[ "Get" := VObject {[ "Other" := VArray [] ]} ]};
                                 models.Errors := [] |}))
        embedding3 []).1 =
      ([], Some (errorString "invalid GraphQL response: missing collection LlamaIndex")).
Proof.
  split.
  - destruct (SearchSimilar_malformed_response
                (searchAnswering (inr {| models.Data := ∅; models.Errors := ["no such class"] |}))
                embedding3 [] _ eq_refl) as [Hget _].
    apply Hget. intros get. vm_compute. discriminate.
  - destruct (SearchSimilar_malformed_response
                (searchAnswering
                   (inr {| models.Data := {[ "Get" := VObject {[ "Other" := VArray [] ]} ]};
                           models.Errors := [] |}))
                embedding3 [] _ eq_refl) as [_ Hclass].
    rewrite (Hclass {[ "Other" := VArray [] ]} eq_refl); [reflexivity|].
    intros items. vm_compute. discriminate.
Defined.

Lemma GetEmbedding_never_empty_witness :
  services.GetEmbedding (teiAnswering (ok "[[]]")) movieQuery [] =
    ([], Some (errorString "empty embedding response from TEI"),
     [HTTPDo (embedPost movieQuery)])
  /\ services.GetEmbedding (teiAnswering (ok "[]")) movieQuery [] =
    ([], Some (errorString "empty embedding response from TEI"),
     [HTTPDo (embedPost movieQuery)])
  /\ embedding3 <> [].
Proof.
  split; [|split].
  - destruct (GetEmbedding_never_empty (teiAnswering (ok "[[]]")) movieQuery []) as [Hempty _].
    exact (Hempty (embedPost movieQuery) _ [[]] eq_refl eq_refl eq_refl eq_refl
             (or_intror eq_refl)).
  - destruct (GetEmbedding_never_empty (teiAnswering (ok "[]")) movieQuery []) as [Hempty _].
    exact (Hempty (embedPost movieQuery) _ [] eq_refl eq_refl eq_refl eq_refl
             (or_introl eq_refl)).
  - destruct (GetEmbedding_never_empty (teiAnswering (ok "[[0.1,0.2,0.3]]")) movieQuery [])
      as [_ Hok].
    exact (Hok embedding3 eq_refl).
Defined.

Lemma GetEmbedding_unavailable_witness :
  services.GetEmbedding (teiAnswering (inl timeout)) movieQuery [] =
    ([], Some (wrapError "TEI request failed: context deadline exceeded" timeout),
     [HTTPDo (embedPost movieQuery)])
  /\ services.GetEmbedding
       (teiAnswering (inr {| http.StatusCode := 503; http.RespBody := "" |})) movieQuery [] =
     ([], Some (errorString "TEI server returned status 503"),
      [HTTPDo (embedPost movieQuery)]).
Proof.
  split.
  - assert (Hreq : embedRequest (teiAnswering (inl timeout)) movieQuery
                   = Some (embedPost movieQuery)) by reflexivity.
    destruct (GetEmbedding_unavailable (teiAnswering (inl timeout)) movieQuery []
                (embedPost movieQuery) Hreq) as (Hnet & _).
    exact (Hnet timeout eq_refl).
  - assert (Hreq : embedRequest
                     (teiAnswering (inr {| http.StatusCode := 503; http.RespBody := "" |}))
                     movieQuery = Some (embedPost movieQuery)) by reflexivity.
    destruct (GetEmbedding_unavailable
                (teiAnswering (inr {| http.StatusCode := 503; http.RespBody := "" |}))
                movieQuery [] (embedPost movieQuery) Hreq) as (_ & Hstatus & _).
    refine (Hstatus _ eq_refl _). vm_compute. discriminate.
Defined.

(** A batch whose second vector is empty is accepted: the first vector is
    returned without error. *)
Lemma GetEmbedding_later_empty_vector :
  json_Decode "[[0.1,0.2,0.3],[]]" = inr [embedding3; []]
  /\ existsb (fun v => (length v =? 0)%nat) [embedding3; []] = true
  /\ services.GetEmbedding (teiAnswering (ok "[[0.1,0.2,0.3],[]]")) movieQuery [] =
       (embedding3, None, [HTTPDo (embedPost movieQuery)]).
Proof. repeat apply conj; vm_compute; reflexivity. Qed.

Lemma GenerateResponse_first_choice_witness :
  (services.GenerateResponse (generatorAnswering (inr (completion []))) "prompt" []).1 =
    ("", Some (errorString "no completion choices returned from vLLM"))
  /\ (services.GenerateResponse
        (generatorAnswering (inr (completion [movieAnswer; "Another."]))) "prompt" []).1 =
     (movieAnswer, None).
Proof.
  split.
  - destruct (GenerateResponse_first_choice (generatorAnswering (inr (completion [])))
                "prompt" [] (completion []) eq_refl) as [_ Hnone].
    by rewrite (Hnone eq_refl).
  - destruct (GenerateResponse_first_choice
                (generatorAnswering (inr (completion [movieAnswer; "Another."])))
                "prompt" [] (completion [movieAnswer; "Another."]) eq_refl) as [Hfirst _].
    by rewrite (Hfirst _ _ eq_refl).
Defined.

Lemma Handle_empty_query_witness :
  handlers.Handle (handlers.NewQueryHandler movies) (posting "") [] =
    (Some (fiberError 400 "Query cannot be empty"), []).
Proof.
  destruct (Handle_empty_query (handlers.NewQueryHandler movies) (posting "") []
              {| models.Query := "" |} eq_refl eq_refl) as [Hreject _].
  exact Hreject.
Defined.

(** A query of one space is empty after trimming, yet it is answered: the
    handler returns no error and the four stages have run. *)
Lemma Handle_blank_query_answered :
  (String.length (TrimSpace " ") < 1)%nat
  /\ (handlers.Handle (handlers.NewQueryHandler movies) (posting " ") []).1 = None
  /\ invoked (handlers.Handle (handlers.NewQueryHandler movies) (posting " ") []).2
     = pipelineOrder
  /\ last (handlers.Handle (handlers.NewQueryHandler movies) (posting " ") []).2
     = Some (SendJSON {| models.Response := movieAnswer |}).
Proof. split; [vm_compute; lia|]. repeat apply conj; vm_compute; reflexivity. Qed.

(** A query that quotes the marker brings it into the prompt. *)
Lemma prompt_marker_from_query :
  services.buildContext [] = noContext
  /\ Contains chunkMarker chunkMarker = true
  /\ Contains (finalPrompt chunkMarker []) chunkMarker = true.
Proof. repeat apply conj; vm_compute; reflexivity. Qed.

Lemma Query_failure_answer_empty_witness :
  (services.Query searchDown movieQuery []).1.1 = ""
  /\ (services.Query (rag (inl timeout) (inr (found [])) (inr (completion [])))
        movieQuery []).1 =
     ("", Some (wrapError
                  "failed to get embedding: TEI request failed: context deadline exceeded"
                  (wrapError "TEI request failed: context deadline exceeded" timeout))).
Proof.
  split.
  - destruct (Query_failure_answer_empty searchDown movieQuery []) as (Hany & _).
    exact (Hany _ eq_refl).
  - destruct (Query_failure_answer_empty
                (rag (inl timeout) (inr (found [])) (inr (completion []))) movieQuery [])
      as (_ & Hembed & _).
    exact (Hembed [] _ eq_refl).
Defined.

(** The end-to-end scenario: the answer is the completion, the four stages
    ran in order, and the prompt sent holds both chunk markers and the
    query. *)
Example movies_answered :
  (services.Query movies movieQuery []).1 = (movieAnswer, None)
  /\ invoked (services.Query movies movieQuery []).2 = pipelineOrder
  /\ last (services.Query movies movieQuery []).2 =
       Some (ChatCompletion (chatRequest (services.vllm movies)
                               (finalPrompt movieQuery [movieA; movieB])))
  /\ Contains (finalPrompt movieQuery [movieA; movieB]) "--- Context Chunk 1 ---" = true
  /\ Contains (finalPrompt movieQuery [movieA; movieB]) "--- Context Chunk 2 ---" = true
  /\ Contains (finalPrompt movieQuery [movieA; movieB]) movieQuery = true.
Proof. repeat apply conj; vm_compute; reflexivity. Qed.
End instances.

(* ===================================================================== *)
(** ** Further properties of the pipeline *)
(* ===================================================================== *)

Section runs.
Context `{StdLib}.
Implicit Types (s : services.RAGService) (t : list event).

(** A run of [Query], by the stage at which it ended: what it returns and
    the events it adds. *)
Lemma Query_cases s query t :
  exists evs, (services.Query s query t).2 = t ++ evs /\
    ((exists embedding err,
        (services.GetEmbedding (services.tei s) query t).1 = (embedding, Some err) /\
        (services.Query s query t).1 =
          ("", Some (wrapError ("failed to get embedding: " +:+ Error err) err)) /\
        evs = Invoke EmbeddingProvider ::
              from_option (fun req => [HTTPDo req]) [] (embedRequest (services.tei s) query))
     \/ (exists req embedding chunks err,
           embedRequest (services.tei s) query = Some req /\
           (services.GetEmbedding (services.tei s) query t).1 = (embedding, None) /\
           (services.SearchSimilar (services.weaviate s) embedding t).1 = (chunks, Some err) /\
           (services.Query s query t).1 =
             ("", Some (wrapError ("failed to search Weaviate: " +:+ Error err) err)) /\
           evs = [Invoke EmbeddingProvider; HTTPDo req; Invoke Retriever;
                  GraphQLDo (searchRequest (services.weaviate s) embedding)])
     \/ (exists req embedding chunks answer gerr,
           embedRequest (services.tei s) query = Some req /\
           (services.GetEmbedding (services.tei s) query t).1 = (embedding, None) /\
           (services.SearchSimilar (services.weaviate s) embedding t).1 = (chunks, None) /\
           (services.GenerateResponse (services.vllm s) (finalPrompt query chunks) t).1
             = (answer, gerr) /\
           (services.Query s query t).1 =
             match gerr with
             | Some err =>
                 ("", Some (wrapError ("failed to generate answer: " +:+ Error err) err))
             | None => (answer, None)
             end /\
           evs = [Invoke EmbeddingProvider; HTTPDo req; Invoke Retriever;
                  GraphQLDo (searchRequest (services.weaviate s) embedding);
                  Invoke PromptBuilder; Invoke Generator;
                  ChatCompletion (chatRequest (services.vllm s)
                                    (finalPrompt query chunks))])).
Proof.
  rewrite Query_run.
  pose proof (GetEmbedding_trace (services.tei s) query (t ++ [Invoke EmbeddingProvider])) as Ht1.
  pose proof (GetEmbedding_result (services.tei s) query t (t ++ [Invoke EmbeddingProvider])) as Hr.
  destruct (services.GetEmbedding (services.tei s) query (t ++ _)) as [[embedding [err|]] t1] eqn:Hemb;
    cbn in Ht1, Hr; subst t1.
  { eexists. rewrite <-app_assoc. split; [done|]. left. by exists embedding, err. }
  destruct (GetEmbedding_ok _ _ _ _ _ Hemb) as (req & _ & _ & Hreq & _ & _ & _ & _ & _).
  rewrite Hreq in *. cbn [from_option].
  rewrite SearchSimilar_run.
  destruct (match graphql.Do _ _ with inl _ => _ | inr _ => _ end)
    as [chunks [err|]] eqn:Hsearch.
  { eexists. rewrite <-!app_assoc. split; [done|]. right; left.
    exists req, embedding, chunks, err. by rewrite SearchSimilar_run, Hsearch. }
  rewrite GenerateResponse_run.
  destruct (match openai.CreateChatCompletion _ _ with inl _ => _ | inr _ => _ end)
    as [answer gerr] eqn:Hgen.
  eexists. split.
  - destruct gerr; cbn; by rewrite <-!app_assoc.
  - right; right. exists req, embedding, chunks, answer, gerr.
    rewrite SearchSimilar_run, Hsearch, GenerateResponse_run, Hgen.
    by destruct gerr.
Qed.

(** X1. A run of [Query] calls each backing service at most once, in the
    order embedding, search, generation, and an error-free run has called
    all three: nothing is retried and nothing is skipped. *)
Theorem Query_backend_calls s query t :
  calls (drop (length t) (services.Query s query t).2) `prefix_of` [TEI; Weaviate; VLLM]
  /\ ((services.Query s query t).1.2 = None ->
      calls (drop (length t) (services.Query s query t).2) = [TEI; Weaviate; VLLM]).
Proof.
  destruct (Query_cases s query t) as (evs & Hevs & Hcase).
  rewrite Hevs, drop_app_length.
  destruct Hcase as [(emb & err & _ & Hq & ->)
                    |[(req & emb & chunks & err & _ & _ & _ & Hq & ->)
                     |(req & emb & chunks & answer & gerr & _ & _ & _ & _ & Hq & ->)]];
    rewrite Hq.
  - split; [|done]. destruct (embedRequest _ _); cbn.
    + by exists [Weaviate; VLLM].
    + by exists [TEI; Weaviate; VLLM].
  - split; [|done]. by exists [VLLM].
  - done.
Qed.

(** X2. [Query] returns an answer without error exactly when the three
    calling stages succeed in turn, each on the result of the one before,
    and the answer is then the one the generator returned for the prompt
    built from the query and the retrieved passages. *)
Theorem Query_succeeds_iff s query t (answer : string) :
  (services.Query s query t).1 = (answer, None) <->
  exists embedding chunks,
    (services.GetEmbedding (services.tei s) query t).1 = (embedding, None) /\
    (services.SearchSimilar (services.weaviate s) embedding t).1 = (chunks, None) /\
    (services.GenerateResponse (services.vllm s) (finalPrompt query chunks) t).1
      = (answer, None).
Proof.
  destruct (Query_cases s query t) as (evs & _ & Hcase).
  destruct Hcase as [(emb & err & He & Hq & _)
                    |[(req & emb & chunks & err & _ & He & Hs & Hq & _)
                     |(req & emb & chunks & ans & gerr & _ & He & Hs & Hg & Hq & _)]];
    rewrite Hq.
  - split; [done|]. intros (emb' & chunks' & He' & _). rewrite He in He'. by simplify_eq.
  - split; [done|]. intros (emb' & chunks' & He' & Hs' & _).
    rewrite He in He'. simplify_eq. rewrite Hs in Hs'. by simplify_eq.
  - split.
    + destruct gerr; [done|]. intros [= ->]. by exists emb, chunks.
    + intros (emb' & chunks' & He' & Hs' & Hg').
      rewrite He in He'. simplify_eq. rewrite Hs in Hs'. simplify_eq.
      rewrite Hg in Hg'. by simplify_eq.
Qed.

(** X3. A stage that returns an error returns nothing else: no embedding,
    no passage, no text. *)
Theorem stages_return_nothing_with_error :
  (forall (e : services.TEIService) text t err,
      (services.GetEmbedding e text t).1.2 = Some err ->
      (services.GetEmbedding e text t).1.1 = [])
  /\ (forall (w : services.WeaviateService) (embedding : list float64) t err,
        (services.SearchSimilar w embedding t).1.2 = Some err ->
        (services.SearchSimilar w embedding t).1.1 = [])
  /\ (forall (g : services.VLLMService) prompt t err,
        (services.GenerateResponse g prompt t).1.2 = Some err ->
        (services.GenerateResponse g prompt t).1.1 = "").
Proof.
  split; [|split].
  - intros e text t err.
    destruct (embedRequest e text) as [req|] eqn:Hreq.
    + rewrite (GetEmbedding_run _ _ _ req Hreq). cbn.
      destruct (http.Do _ _) as [?|resp]; [done|].
      destruct (negb _); [done|].
      by destruct (json_Decode (http.RespBody resp)) as [?|[|[|x v] rest]].
    + unfold embedRequest in Hreq. unfold services.GetEmbedding. io_unfold.
      destruct (json_Marshal _) as [?|bytes]; cbn in *; [done|].
      by destruct (http_NewRequestWithContext _ _ _).
  - intros w embedding t err. rewrite SearchSimilar_run. cbn.
    destruct (graphql.Do _ _) as [?|resp]; [done|].
    unfold services.extractTextChunks.
    destruct (assertMap _); [|done]. by destruct (assertSlice _).
  - intros g prompt t err. rewrite GenerateResponse_run. cbn.
    destruct (openai.CreateChatCompletion _ _) as [?|resp]; [done|].
    by destruct (openai.Choices resp).
Qed.

(** X4. When a call to a backing service fails with [cause], the error
    [Query] returns reads as the stage text, the service text and the
    message of [cause], and [cause] itself is two unwrappings away. *)
Theorem Query_error_unwraps_to_cause s query t :
  (forall req cause,
      embedRequest (services.tei s) query = Some req ->
      http.Do (services.httpClient (services.tei s)) req = inl cause ->
      exists err,
        (services.Query s query t).1 = ("", Some err) /\
        Error err = "failed to get embedding: TEI request failed: " +:+ Error cause /\
        Unwrap err ≫= Unwrap = Some cause)
  /\ (forall embedding cause,
        (services.GetEmbedding (services.tei s) query t).1 = (embedding, None) ->
        graphql.Do (services.client (services.weaviate s))
          (searchRequest (services.weaviate s) embedding) = inl cause ->
        exists err,
          (services.Query s query t).1 = ("", Some err) /\
          Error err = "failed to search Weaviate: Weaviate query failed: " +:+ Error cause /\
          Unwrap err ≫= Unwrap = Some cause)
  /\ (forall embedding chunks cause,
        (services.GetEmbedding (services.tei s) query t).1 = (embedding, None) ->
        (services.SearchSimilar (services.weaviate s) embedding t).1 = (chunks, None) ->
        openai.CreateChatCompletion (services.vllm_client (services.vllm s))
          (chatRequest (services.vllm s) (finalPrompt query chunks)) = inl cause ->
        exists err,
          (services.Query s query t).1 = ("", Some err) /\
          Error err = "failed to generate answer: vLLM completion failed: " +:+ Error cause /\
          Unwrap err ≫= Unwrap = Some cause).
Proof.
  destruct (Query_cases s query t) as (evs & _ & Hcase).
  split; [|split].
  - intros req cause Hreq Hdo.
    pose proof (GetEmbedding_run _ _ t _ Hreq) as Hrun. rewrite Hdo in Hrun.
    destruct Hcase as [(emb & err & He & Hq & _)
                      |[(? & emb & ? & ? & _ & He & _)|(? & emb & ? & ? & ? & _ & He & _)]];
      rewrite Hrun in He; simplify_eq/=.
    eexists. by rewrite Hq.
  - intros embedding cause Hemb Hdo.
    destruct Hcase as [(emb & err & He & _)
                      |[(? & emb & chunks & err & _ & He & Hs & Hq & _)
                       |(? & emb & chunks & ? & ? & _ & He & Hs & _)]];
      rewrite Hemb in He; simplify_eq;
      rewrite SearchSimilar_run, Hdo in Hs; simplify_eq/=.
    eexists. by rewrite Hq.
  - intros embedding chunks cause Hemb Hsearch Hdo.
    destruct Hcase as [(emb & err & He & _)
                      |[(? & emb & ch & err & _ & He & Hs & _)
                       |(? & emb & ch & ans & gerr & _ & He & Hs & Hg & Hq & _)]];
      rewrite Hemb in He; simplify_eq; rewrite Hsearch in Hs; simplify_eq.
    rewrite GenerateResponse_run, Hdo in Hg. simplify_eq/=.
    eexists. by rewrite Hq.
Qed.

(** X5. Every error [Query] returns is a wrapped error whose message starts
    with the text of the stage that failed; the error handler of the server
    answers it with status 500 and that message as the body, whatever the
    wrapped cause is. *)
Theorem Query_error_status s query t err :
  (services.Query s query t).1.2 = Some err ->
  (exists cause stageText,
      stageText ∈ ["failed to get embedding: "; "failed to search Weaviate: ";
                   "failed to generate answer: "] /\
      err = wrapError (stageText +:+ Error cause) cause)
  /\ server.customErrorHandler err = (500, {| models.Error := Error err |}).
Proof.
  destruct (Query_cases s query t) as (evs & _ & Hcase).
  destruct Hcase as [(emb & e & _ & Hq & _)
                    |[(? & emb & chunks & e & _ & _ & _ & Hq & _)
                     |(? & emb & chunks & ans & gerr & _ & _ & _ & _ & Hq & _)]];
    rewrite Hq; [| |destruct gerr as [e|]; [|done]]; intros [= <-]; (split; [|done]);
    exists e; eexists; (split; [|done]); rewrite !elem_of_cons; auto.
Qed.

(** X8. The vector [Query] searches with is never empty, and the search
    request carries the configured collection and limit and asks for the
    text field only.  [SearchSimilar] itself does not look at the length: on
    an empty embedding it still sends its request. *)
Theorem Query_search_request s query t :
  (forall q,
      GraphQLDo q ∈ drop (length t) (services.Query s query t).2 ->
      graphql.nearVector q <> [] /\
      graphql.className q = services.collectionName (services.weaviate s) /\
      graphql.limit q = services.searchLimit (services.weaviate s) /\
      graphql.fields q = [ {| graphql.Name := "text" |} ])
  /\ (services.SearchSimilar (services.weaviate s) [] t).2 =
       t ++ [GraphQLDo (searchRequest (services.weaviate s) [])].
Proof.
  split; [|by rewrite SearchSimilar_run].
  intros q. destruct (Query_cases s query t) as (evs & Hevs & Hcase).
  rewrite Hevs, drop_app_length.
  assert (Hvec : forall embedding,
             (services.GetEmbedding (services.tei s) query t).1 = (embedding, None) ->
             float32_of_float64 <$> embedding <> []).
  { intros embedding Hemb.
    destruct (GetEmbedding_ok (services.tei s) query t embedding
                (services.GetEmbedding (services.tei s) query t).2)
      as (? & ? & ? & _ & _ & _ & _ & Hne & _).
    { by rewrite <-Hemb, <-!surjective_pairing. }
    by destruct embedding. }
  destruct Hcase as [(emb & e & _ & _ & ->)
                    |[(? & emb & chunks & e & _ & He & _ & _ & ->)
                     |(? & emb & chunks & ans & gerr & _ & He & _ & _ & _ & ->)]].
  - destruct (embedRequest _ _); cbn; rewrite ?elem_of_cons, elem_of_nil; intros Hin;
      repeat (destruct Hin as [Hin|Hin]; try discriminate Hin); done.
  - rewrite !elem_of_cons, elem_of_nil. intros Hin.
    repeat (destruct Hin as [Hin|Hin]; try discriminate Hin); [|done].
    injection Hin as ->. split; [by apply Hvec|done].
  - rewrite !elem_of_cons, elem_of_nil. intros Hin.
    repeat (destruct Hin as [Hin|Hin]; try discriminate Hin); [|done].
    injection Hin as ->. split; [by apply Hvec|done].
Qed.
End runs.

Section embedding_errors.
Context `{StdLib}.
Implicit Types (s : services.TEIService) (t : list event).

Lemma Errorf_TEI_marshal err :
  Errorf "failed to marshal TEI request: %w" [OErr err]
  = wrapError ("failed to marshal TEI request: " +:+ Error err) err.
Proof. fmt_eval. reflexivity. Qed.

Lemma Errorf_TEI_create err :
  Errorf "failed to create TEI request: %w" [OErr err]
  = wrapError ("failed to create TEI request: " +:+ Error err) err.
Proof. fmt_eval. reflexivity. Qed.

(** X20. [GetEmbedding] sends nothing when its request cannot be built: a
    failure to marshal the payload or to create the request is returned
    wrapped, with the trace unchanged.  A response with status 200 whose
    body does not decode is a failure too, wrapped under "failed to decode
    TEI response: ", after the one request. *)
Theorem GetEmbedding_request_and_decode_errors s text t :
  (forall cause,
      json_Marshal {| models.Inputs := [text]; models.Truncate := true;
                      models.Normalize := true |} = inl cause ->
      services.GetEmbedding s text t =
        ([], Some (wrapError ("failed to marshal TEI request: " +:+ Error cause) cause), t))
  /\ (forall bytes cause,
        json_Marshal {| models.Inputs := [text]; models.Truncate := true;
                        models.Normalize := true |} = inr bytes ->
        http_NewRequestWithContext "POST" (services.baseURL s +:+ "/embed") bytes
          = inl cause ->
        services.GetEmbedding s text t =
          ([], Some (wrapError ("failed to create TEI request: " +:+ Error cause) cause), t))
  /\ (forall req resp cause,
        embedRequest s text = Some req ->
        http.Do (services.httpClient s) req = inr resp ->
        http.StatusCode resp = 200 ->
        json_Decode (http.RespBody resp) = inl cause ->
        services.GetEmbedding s text t =
          ([], Some (wrapError ("failed to decode TEI response: " +:+ Error cause) cause),
           t ++ [HTTPDo req])).
Proof.
  split; [|split].
  - intros cause Hm. unfold services.GetEmbedding. io_unfold.
    by rewrite Hm, Errorf_TEI_marshal.
  - intros bytes cause Hm Hr. unfold services.GetEmbedding. io_unfold.
    change http.MethodPost with "POST". by rewrite Hm, Hr, Errorf_TEI_create.
  - intros req resp cause Hreq Hdo Hst Hdec.
    by rewrite (GetEmbedding_run _ _ _ req Hreq), Hdo, Hst, Hdec.
Qed.
End embedding_errors.

Section passages.
Context `{StdLib}.
Implicit Types (items : list value) (data get : gmap string value).

Lemma omap_itemText_nonempty items : Forall (fun c => c <> "") (omap itemText items).
Proof.
  induction items as [|item items IH]; cbn; [constructor|].
  destruct (itemText item) as [text|] eqn:Hitem; [|done].
  constructor; [|done]. by apply itemText_Some in Hitem as (? & _ & _ & ?).
Qed.

Lemma omap_itemText_length items : (length (omap itemText items) <= length items)%nat.
Proof.
  induction items as [|item items IH]; cbn; [done|].
  destruct (itemText item); cbn; lia.
Qed.

(** X6. Whatever the response is, [extractTextChunks] never returns an empty
    passage and never returns passages together with an error; on a
    well-shaped response it returns at most one passage per result item. *)
Theorem extractTextChunks_passages data (name : string) :
  Forall (fun c => c <> "") (services.extractTextChunks data name).1
  /\ ((services.extractTextChunks data name).2 <> None ->
      (services.extractTextChunks data name).1 = [])
  /\ (forall get items,
        data !! "Get" = Some (VObject get) ->
        get !! name = Some (VArray items) ->
        (length (services.extractTextChunks data name).1 <= length items)%nat).
Proof.
  split; [|split].
  - unfold services.extractTextChunks.
    destruct (assertMap _) as [get|]; [|by constructor].
    destruct (assertSlice _) as [items|]; [|by constructor].
    cbn. rewrite foldl_appendChunk. apply omap_itemText_nonempty.
  - unfold services.extractTextChunks.
    destruct (assertMap _) as [get|]; [|done]. by destruct (assertSlice _).
  - intros get items Hget Hitems.
    rewrite (extractTextChunks_valid _ get _ items) by done. apply omap_itemText_length.
Qed.

(** X7. The result of [SearchSimilar] is decided by the list found under the
    collection name inside "Get" and by nothing else in the response: other
    collections, other top-level keys and the [Errors] the response reports
    do not change it. *)
Theorem SearchSimilar_reads_only_collection (s s' : services.WeaviateService)
    (embedding : list float64) (t : list event) (resp resp' : models.GraphQLResponse)
    (get get' : gmap string value) :
  services.collectionName s = services.collectionName s' ->
  graphql.Do (services.client s) (searchRequest s embedding) = inr resp ->
  graphql.Do (services.client s') (searchRequest s' embedding) = inr resp' ->
  models.Data resp !! "Get" = Some (VObject get) ->
  models.Data resp' !! "Get" = Some (VObject get') ->
  get !! services.collectionName s = get' !! services.collectionName s ->
  (services.SearchSimilar s embedding t).1 = (services.SearchSimilar s' embedding t).1.
Proof.
  intros Hname Hdo Hdo' Hget Hget' Hsame.
  rewrite !SearchSimilar_run, Hdo, Hdo'. cbn. rewrite <-Hname.
  unfold services.extractTextChunks, index. rewrite Hget, Hget'. cbn.
  by rewrite Hsame.
Qed.
End passages.

Section context.
Implicit Types (chunks : list string) (s a b m : string).

Lemma joined_app (l1 l2 : list string) : joined (l1 ++ l2) = joined l1 +:+ joined l2.
Proof.
  induction l1 as [|x l1 IH]; [done|]. cbn [app joined foldr].
  fold (joined (l1 ++ l2)). fold (joined l1). by rewrite IH, append_assoc.
Qed.

Lemma prefix_app_l m s b : String.prefix m s = true -> String.prefix m (s +:+ b) = true.
Proof.
  revert m. induction s as [|x s IH]; intros m.
  - destruct m; [|done]. by destruct b.
  - destruct m as [|c m]; [done|]. rewrite append_cons. cbn.
    destruct (ascii_dec c x); [apply IH|done].
Qed.

Lemma prefix_self_app m b : String.prefix m (m +:+ b) = true.
Proof.
  induction m as [|c m IH]; [by destruct b|]. rewrite append_cons. cbn.
  by destruct (ascii_dec c c).
Qed.

Lemma Contains_prefix s m : String.prefix m s = true -> Contains s m = true.
Proof. intros Hp. destruct s; cbn -[String.prefix]; by rewrite Hp. Qed.

Lemma Contains_app_r a s m : Contains s m = true -> Contains (a +:+ s) m = true.
Proof.
  intros Hs. induction a as [|x a IH]; [done|].
  rewrite append_cons, Contains_cons, IH. apply orb_true_r.
Qed.

Lemma Contains_app_l s b m : Contains s m = true -> Contains (s +:+ b) m = true.
Proof.
  induction s as [|x s IH].
  - cbn. rewrite orb_false_r. destruct m; [|done]. intros _. by destruct b.
  - rewrite append_cons, !Contains_cons. intros [Hp|Hc]%orb_true_iff.
    + rewrite <-append_cons, (prefix_app_l _ _ _ Hp). done.
    + by rewrite (IH Hc), orb_true_r.
Qed.

(** A string holds each of the pieces it is put together from. *)
Lemma Contains_middle a m b : Contains (a +:+ m +:+ b) m = true.
Proof. apply Contains_app_r, Contains_prefix, prefix_self_app. Qed.

Lemma Contains_joined (l : list string) x m :
  x ∈ l -> Contains x m = true -> Contains (joined l) m = true.
Proof.
  induction 1 as [x l|x y l _ IH]; intros Hx; cbn [joined foldr].
  - by apply Contains_app_l.
  - apply Contains_app_r. by apply IH.
Qed.

Lemma contextBlock_first chunk :
  contextBlock 0 chunk = ("--- Context Chunk 1 ---" +:+ LF) +:+ chunk +:+ LF +:+ LF.
Proof. reflexivity. Qed.

Lemma contextBlock_text (i : nat) chunk :
  contextBlock i chunk
  = ("--- Context Chunk " +:+ Itoa (Z.of_nat i + 1) +:+ " ---" +:+ LF)
    +:+ chunk +:+ LF +:+ LF.
Proof. unfold contextBlock. by rewrite !append_assoc. Qed.

Lemma contextBlock_marker (i : nat) chunk :
  contextBlock i chunk
  = chunkMarker +:+ " " +:+ Itoa (Z.of_nat i + 1) +:+ " ---" +:+ LF +:+ chunk +:+ LF +:+ LF.
Proof. reflexivity. Qed.

(** X9. The context is never the empty string: it is the sentinel, which
    holds no chunk marker, when there is no passage, and otherwise it starts
    with the marker of chunk 1. *)
Theorem buildContext_never_empty chunks :
  services.buildContext chunks <> ""
  /\ (chunks = [] ->
      services.buildContext chunks = noContext /\
      Contains (services.buildContext chunks) chunkMarker = false)
  /\ (chunks <> [] ->
      String.prefix ("--- Context Chunk 1 ---" +:+ LF) (services.buildContext chunks) = true /\
      Contains (services.buildContext chunks) chunkMarker = true).
Proof.
  destruct chunks as [|chunk rest].
  - split; [done|]. split; [|done]. intros _. split; [done|by vm_compute].
  - assert (Hblocks : services.buildContext (chunk :: rest) =
                        contextBlock 0 chunk +:+ joined (imap (contextBlock ∘ S) rest)).
    { by rewrite buildContext_blocks. }
    assert (Hstart : String.prefix ("--- Context Chunk 1 ---" +:+ LF)
                       (services.buildContext (chunk :: rest)) = true).
    { rewrite Hblocks, contextBlock_first. apply prefix_app_l, prefix_self_app. }
    split; [|split; [done|]].
    + intros Hempty. by rewrite Hempty in Hstart.
    + intros _. split; [done|].
      apply Contains_prefix. rewrite Hblocks, contextBlock_marker.
      apply prefix_app_l, prefix_self_app.
Qed.

(** X10. Further passages only add blocks: the context of a non-empty
    sequence followed by more passages is the context of the sequence
    followed by the blocks of the added passages, numbered on from where the
    sequence ended. *)
Theorem buildContext_app (chunks more : list string) :
  chunks <> [] ->
  services.buildContext (chunks ++ more) =
    services.buildContext chunks
    +:+ joined (imap (fun k => contextBlock (length chunks + k)) more).
Proof.
  intros Hne.
  rewrite !buildContext_blocks by (by destruct chunks).
  by rewrite imap_app, joined_app.
Qed.

(** X11. Every prompt starts with the head of the instruction template and
    holds, verbatim, the query and each passage it was built from. *)
Theorem finalPrompt_holds_inputs (query : string) chunks :
  String.prefix templateHead (finalPrompt query chunks) = true
  /\ Contains (finalPrompt query chunks) query = true
  /\ (forall chunk, chunk ∈ chunks -> Contains (finalPrompt query chunks) chunk = true).
Proof.
  unfold finalPrompt. rewrite Sprintf_template. split; [apply prefix_self_app|]. split.
  - rewrite <-!append_assoc, append_assoc. apply Contains_middle.
  - intros chunk Hin. apply Contains_app_r, Contains_app_l.
    rewrite buildContext_blocks by (by destruct Hin).
    apply list_elem_of_lookup in Hin as [i Hi].
    apply (Contains_joined _ (contextBlock i chunk)).
    + apply list_elem_of_lookup. exists i. by rewrite list_lookup_imap, Hi.
    + rewrite contextBlock_text. apply Contains_middle.
Qed.

(** X21. The completion request of a run of [Query] carries one message, of
    role "user", whose content is the prompt built from the query and the
    passages the search returned; it asks to stop at "<|eot_id|>", and the
    prompt holds the query. *)
Theorem Query_completion_request `{StdLib} (s : services.RAGService) (query : string)
    (t : list event) (req : openai.ChatCompletionRequest) :
  ChatCompletion req ∈ drop (length t) (services.Query s query t).2 ->
  exists embedding chunks,
    (services.GetEmbedding (services.tei s) query t).1 = (embedding, None) /\
    (services.SearchSimilar (services.weaviate s) embedding t).1 = (chunks, None) /\
    openai.Messages req =
      [ {| openai.Role := "user"; openai.Content := finalPrompt query chunks |} ] /\
    openai.Stop req = ["<|eot_id|>"] /\
    openai.MaxTokens req = services.maxTokens (services.vllm s) /\
    Contains (finalPrompt query chunks) query = true.
Proof.
  destruct (Query_cases s query t) as (evs & Hevs & Hcase).
  rewrite Hevs, drop_app_length.
  destruct Hcase as [(emb & e & _ & _ & ->)
                    |[(? & emb & chunks & e & _ & _ & _ & _ & ->)
                     |(? & emb & chunks & ans & gerr & _ & He & Hs & _ & _ & ->)]].
  - destruct (embedRequest _ _); cbn; rewrite ?elem_of_cons, elem_of_nil; intros Hin;
      repeat (destruct Hin as [Hin|Hin]; try discriminate Hin); done.
  - rewrite !elem_of_cons, elem_of_nil. intros Hin.
    repeat (destruct Hin as [Hin|Hin]; try discriminate Hin); done.
  - rewrite !elem_of_cons, elem_of_nil. intros Hin.
    repeat (destruct Hin as [Hin|Hin]; try discriminate Hin); [|done].
    injection Hin as ->. exists emb, chunks. repeat split; try done.
    unfold finalPrompt. rewrite Sprintf_template.
    rewrite <-!append_assoc, append_assoc. apply Contains_middle.
Qed.
End context.

Section boundary.
Context `{StdLib}.
Implicit Types (h : handlers.QueryHandler) (c : fiber.Ctx) (t : list event).

(** [Query] writes no response body. *)
Lemma Query_writes_nothing (s : services.RAGService) query t :
  written (drop (length t) (services.Query s query t).2) = [].
Proof.
  destruct (Query_cases s query t) as (evs & -> & Hcase). rewrite drop_app_length.
  destruct Hcase as [(? & ? & _ & _ & ->)
                    |[(? & ? & ? & ? & _ & _ & _ & _ & ->)
                     |(? & ? & ? & ? & ? & _ & _ & _ & _ & _ & ->)]]; [|done..].
  by destruct (embedRequest _ _).
Qed.

Lemma Query_error_500 (s : services.RAGService) query t err :
  (services.Query s query t).1.2 = Some err ->
  server.customErrorHandler err = (500, {| models.Error := Error err |}).
Proof.
  destruct (Query_cases s query t) as (evs & _ & Hcase).
  destruct Hcase as [(? & ? & _ & Hq & _)
                    |[(? & ? & ? & ? & _ & _ & _ & Hq & _)
                     |(? & ? & ? & ? & gerr & _ & _ & _ & _ & Hq & _)]];
    rewrite Hq; [| |destruct gerr; [|done]]; by intros [= <-].
Qed.

Lemma Query_trace_extends (s : services.RAGService) query t :
  exists evs, (services.Query s query t).2 = t ++ evs.
Proof. destruct (Query_cases s query t) as (evs & Hevs & _). by exists evs. Qed.

(** X12. When the handler returns an error, no response body has been
    written, and the server's error handler answers with the message of the
    error and with status 400 or 500: 400 exactly when the body could not be
    parsed or the query is the empty string, 500 for every failure of the
    pipeline. *)
Theorem Handle_error_status h c t err :
  (handlers.Handle h c t).1 = Some err ->
  written (drop (length t) (handlers.Handle h c t).2) = []
  /\ (server.customErrorHandler err).2 = {| models.Error := Error err |}
  /\ ((server.customErrorHandler err).1 = 400 \/ (server.customErrorHandler err).1 = 500)
  /\ ((server.customErrorHandler err).1 = 400 <->
      (exists e, fiber.BodyParser c = inl e)
      \/ fiber.BodyParser c = inr {| models.Query := "" |}).
Proof.
  destruct (fiber.BodyParser c) as [e|[query]] eqn:Hparse.
  - unfold handlers.Handle. rewrite Hparse. io_unfold. intros [= <-]. cbn.
    rewrite drop_all. repeat split; eauto.
  - destruct (decide (query = "")) as [->|Hne].
    + unfold handlers.Handle. rewrite Hparse. io_unfold. cbn. intros [= <-]. cbn.
      rewrite drop_all. repeat split; eauto.
    + rewrite (Handle_nonempty_query h c t _ Hparse Hne). cbn [models.Query].
      pose proof (Query_writes_nothing (handlers.ragService h) query t) as Hw.
      pose proof (Query_error_500 (handlers.ragService h) query t) as H500.
      destruct (services.Query _ _ _) as [[answer [qerr|]] t']; cbn [fst snd] in *; [|done].
      intros [= <-]. rewrite (H500 qerr eq_refl). cbn [fst snd].
      repeat split; auto; try done.
      intros [[e [=]]|[= ->]]. done.
Qed.

(** X13. The handler returns without error exactly when the body parses to
    a non-empty query and [Query] answers it without error; it then writes
    one response body, which carries that answer. *)
Theorem Handle_success_writes_answer h c t :
  (handlers.Handle h c t).1 = None <->
  exists req answer,
    fiber.BodyParser c = inr req /\
    models.Query req <> "" /\
    (services.Query (handlers.ragService h) (models.Query req) t).1 = (answer, None) /\
    written (drop (length t) (handlers.Handle h c t).2) = [ {| models.Response := answer |} ].
Proof.
  destruct (fiber.BodyParser c) as [e|req] eqn:Hparse.
  { unfold handlers.Handle. rewrite Hparse. io_unfold. split; [done|].
    by intros (? & ? & [=] & _). }
  destruct (decide (models.Query req = "")) as [Hempty|Hne].
  { unfold handlers.Handle. rewrite Hparse, Hempty. io_unfold. cbn. split; [done|].
    by intros (? & ? & [= <-] & ? & _). }
  rewrite (Handle_nonempty_query h c t _ Hparse Hne).
  pose proof (Query_writes_nothing (handlers.ragService h) (models.Query req) t) as Hw.
  destruct (Query_trace_extends (handlers.ragService h) (models.Query req) t) as (evs & Hevs).
  destruct (services.Query _ _ _) as [[answer [qerr|]] t'] eqn:HQ;
    cbn [fst snd] in *; subst t'.
  - split; [done|]. intros (req' & answer' & [= <-] & _ & Hok & _).
    rewrite HQ in Hok. by simplify_eq/=.
  - split; [intros _|done]. exists req, answer. rewrite HQ. repeat split; try done.
    rewrite drop_app_length in Hw. rewrite <-app_assoc, drop_app_length.
    unfold written in *. by rewrite omap_app, Hw.
Qed.
End boundary.

Section configuration.
Implicit Types (env : gmap string string) (key def : string).

Lemma getEnv_unfold env key def :
  config.getEnv env key def =
    match env !! key with
    | Some v => if bool_decide (v = "") then def else v
    | None => def
    end.
Proof.
  unfold config.getEnv, config.os_Getenv.
  destruct (env !! key) as [v|]; cbn; [|done].
  rewrite bool_decide_not. by destruct (bool_decide (v = "")).
Qed.

Lemma getEnv_nonempty env key def : def <> "" -> config.getEnv env key def <> "".
Proof.
  rewrite getEnv_unfold. intros Hdef.
  destruct (env !! key) as [v|]; [|done]. by case_bool_decide.
Qed.

(** X14. [getEnv] treats a variable set to the empty string like an unset
    one: both give the default; a non-empty value is returned as it is, and
    with a non-empty default the result is never empty. *)
Theorem getEnv_empty_is_unset env key def :
  (env !! key = None \/ env !! key = Some "" -> config.getEnv env key def = def)
  /\ (forall v, env !! key = Some v -> v <> "" -> config.getEnv env key def = v)
  /\ (def <> "" -> config.getEnv env key def <> "").
Proof.
  rewrite getEnv_unfold. split; [|split].
  - by intros [->| ->].
  - intros v -> Hv. by rewrite bool_decide_eq_false_2.
  - rewrite <-getEnv_unfold. apply getEnv_nonempty.
Qed.

(** X15. Setting a variable and reading it back: a non-empty value is read
    back, setting it to the empty string or unsetting it reads the default,
    and setting any other variable changes nothing. *)
Theorem getEnv_after_set env key def (v : string) :
  config.getEnv (<[key := v]> env) key def = (if bool_decide (v = "") then def else v)
  /\ config.getEnv (delete key env) key def = def
  /\ (forall other, other <> key ->
        config.getEnv (<[other := v]> env) key def = config.getEnv env key def).
Proof.
  rewrite !getEnv_unfold, lookup_insert_eq, lookup_delete_eq. repeat split.
  intros other Hne. by rewrite getEnv_unfold, lookup_insert_ne.
Qed.

(** X16. Whatever the environment, the loaded configuration has a token
    budget of 4096 and a search limit of 3, and none of its string settings
    is empty. *)
Theorem Load_fixed_limits env :
  config.MaxTokens (config.Load env) = 4096
  /\ config.SearchLimit (config.Load env) = 3
  /\ config.VLLMBaseURL (config.Load env) <> ""
  /\ config.TEIBaseURL (config.Load env) <> ""
  /\ config.VLLMModelName (config.Load env) <> ""
  /\ config.WeaviateHost (config.Load env) <> ""
  /\ config.WeaviateScheme (config.Load env) <> ""
  /\ config.CollectionName (config.Load env) <> ""
  /\ config.ServerPort (config.Load env) <> "".
Proof.
  repeat split; cbn; by apply getEnv_nonempty.
Qed.

(** X17. [Load] reads the seven variables of [configVariables] and nothing
    else: two environments that agree on them load the same configuration,
    and an environment that sets none of them loads the defaults. *)
Theorem Load_reads_only_its_variables env env' :
  ((forall k, k ∈ configVariables -> env !! k = env' !! k) ->
   config.Load env = config.Load env')
  /\ ((forall k, k ∈ configVariables -> env !! k = None) ->
      config.Load env =
        {| config.VLLMBaseURL := "http://localhost:8000/v1";
           config.TEIBaseURL := "http://localhost:8082";
           config.VLLMModelName := "microsoft/Phi-3-mini-128k-instruct";
           config.WeaviateHost := "localhost:8080";
           config.WeaviateScheme := "http";
           config.CollectionName := "LlamaIndex";
           config.ServerPort := ":8081";
           config.MaxTokens := 4096;
           config.SearchLimit := 3 |}).
Proof.
  split.
  - intros Hagree. unfold config.Load. rewrite !(getEnv_unfold env).
    rewrite !Hagree by (unfold configVariables; rewrite !elem_of_cons; auto 10).
    by rewrite <-!getEnv_unfold.
  - intros Hunset. unfold config.Load. rewrite !getEnv_unfold.
    by rewrite !Hunset by (unfold configVariables; rewrite !elem_of_cons; auto 10).
Qed.
End configuration.

Section wiring.
Context `{StdLib} `{!Dialer}.

Lemma Errorf_Weaviate_client err :
  Errorf "failed to create Weaviate client: %w" [OErr err]
  = wrapError ("failed to create Weaviate client: " +:+ Error err) err.
Proof. fmt_eval. reflexivity. Qed.

(** What [New] builds, by the answer of [weaviate.NewClient]. *)
Lemma New_run (cfg : config.Config) :
  server.New cfg =
    match weaviate_NewClient {| weaviate.Host := config.WeaviateHost cfg;
                                weaviate.Scheme := config.WeaviateScheme cfg |} with
    | inl err => inl (wrapError ("failed to create Weaviate client: " +:+ Error err) err)
    | inr weaviateClient =>
        let rag :=
          services.NewRAGService
            (services.NewTEIService (config.TEIBaseURL cfg)
               (http_ClientWithTimeout 30000000000))
            (services.NewWeaviateService weaviateClient (config.CollectionName cfg)
               (config.SearchLimit cfg))
            (services.NewVLLMService
               (openai_NewClientWithConfig
                  {| openai.authToken := "DUMMY_API_KEY";
                     openai.BaseURL := config.VLLMBaseURL cfg |})
               (config.VLLMModelName cfg) (config.MaxTokens cfg)) in
        inr {| server.app := server.setupApp rag; server.cfg := cfg;
               server.ragService := rag |}
    end.
Proof.
  unfold server.New. destruct (weaviate_NewClient _); [by rewrite Errorf_Weaviate_client|done].
Qed.


(** X19. In a server built from the environment, the requests of the
    pipeline carry limits that no variable changes: every search asks for at
    most 3 results, every completion for at most 4096 tokens.  The
    collection searched and the model asked are the ones [getEnv] gives for
    COLLECTION_NAME and VLLM_MODEL_NAME, and the embedding service is
    addressed at the one it gives for TEI_BASE_URL. *)
Theorem New_Load_requests (env : gmap string string) (srv : server.Server) :
  server.New (config.Load env) = inr srv ->
  (forall embedding : list float64,
      graphql.limit (searchRequest (services.weaviate (server.ragService srv)) embedding) = 3
      /\ graphql.className (searchRequest (services.weaviate (server.ragService srv)) embedding)
         = config.getEnv env "COLLECTION_NAME" "LlamaIndex")
  /\ (forall prompt,
        openai.MaxTokens (chatRequest (services.vllm (server.ragService srv)) prompt) = 4096
        /\ openai.Model (chatRequest (services.vllm (server.ragService srv)) prompt)
           = config.getEnv env "VLLM_MODEL_NAME" "microsoft/Phi-3-mini-128k-instruct")
  /\ services.baseURL (services.tei (server.ragService srv))
     = config.getEnv env "TEI_BASE_URL" "http://localhost:8082".
Proof.
  rewrite New_run. destruct (weaviate_NewClient _) as [?|wc]; [done|].
  intros [= <-]. by repeat split.
Qed.
End wiring.


(* ===================================================================== *)
(** ** The further properties on the stub collaborators *)
(* ===================================================================== *)

Section further_instances.
Import stub fixture.

Lemma Query_backend_calls_witness :
  calls (services.Query movies movieQuery []).2 = [TEI; Weaviate; VLLM].
Proof.
  destruct (Query_backend_calls movies movieQuery []) as [_ Hall].
  apply Hall. vm_compute. reflexivity.
Defined.

Lemma Query_succeeds_iff_witness :
  (services.Query movies movieQuery []).1 = (movieAnswer, None).
Proof.
  apply (Query_succeeds_iff movies movieQuery [] movieAnswer).
  exists embedding3, [movieA; movieB]. repeat apply conj; vm_compute; reflexivity.
Defined.

Lemma stages_return_nothing_with_error_witness :
  (services.GetEmbedding (teiAnswering (inl timeout)) movieQuery []).1.1 = []
  /\ (services.SearchSimilar (searchAnswering (inl timeout)) embedding3 []).1.1 = []
  /\ (services.GenerateResponse (generatorAnswering (inl timeout)) "prompt" []).1.1 = "".
Proof.
  destruct (@stages_return_nothing_with_error floats stdlib) as (He & Hs & Hg).
  split; [|split].
  - apply (He (teiAnswering (inl timeout)) movieQuery []
              (wrapError "TEI request failed: context deadline exceeded" timeout)).
    vm_compute. reflexivity.
  - apply (Hs (searchAnswering (inl timeout)) embedding3 []
              (wrapError "Weaviate query failed: context deadline exceeded" timeout)).
    vm_compute. reflexivity.
  - apply (Hg (generatorAnswering (inl timeout)) "prompt" []
              (wrapError "vLLM completion failed: context deadline exceeded" timeout)).
    vm_compute. reflexivity.
Defined.

Lemma Query_error_unwraps_to_cause_witness :
  exists err,
    (services.Query generatorDown movieQuery []).1 = ("", Some err) /\
    Error err = "failed to generate answer: vLLM completion failed: context deadline exceeded" /\
    Unwrap err ≫= Unwrap = Some timeout.
Proof.
  destruct (Query_error_unwraps_to_cause generatorDown movieQuery []) as (_ & _ & Hgen).
  apply (Hgen embedding3 [movieA; movieB] timeout); vm_compute; reflexivity.
Defined.

Lemma Query_error_status_witness :
  server.customErrorHandler
    (wrapError "failed to search Weaviate: Weaviate query failed: context deadline exceeded"
       (wrapError "Weaviate query failed: context deadline exceeded" timeout))
  = (500, {| models.Error :=
               "failed to search Weaviate: Weaviate query failed: context deadline exceeded" |}).
Proof.
  destruct (Query_error_status searchDown movieQuery []
              (wrapError
                 "failed to search Weaviate: Weaviate query failed: context deadline exceeded"
                 (wrapError "Weaviate query failed: context deadline exceeded" timeout)))
    as [_ Hstatus]; [vm_compute; reflexivity|exact Hstatus].
Defined.

Lemma extractTextChunks_passages_witness :
  (length (services.extractTextChunks (models.Data (found mixedItems)) "LlamaIndex").1 <= 6)%nat.
Proof.
  destruct (extractTextChunks_passages (models.Data (found mixedItems)) "LlamaIndex")
    as (_ & _ & Hlen).
  apply (Hlen {[ "LlamaIndex" := VArray mixedItems ]} mixedItems); vm_compute; reflexivity.
Defined.

Lemma SearchSimilar_reads_only_collection_witness :
  (services.SearchSimilar (searchAnswering (inr (found mixedItems))) embedding3 []).1 =
  (services.SearchSimilar (searchAnswering (inr noisy)) embedding3 []).1.
Proof.
  apply (SearchSimilar_reads_only_collection
           (searchAnswering (inr (found mixedItems))) (searchAnswering (inr noisy))
           embedding3 [] (found mixedItems) noisy
           {[ "LlamaIndex" := VArray mixedItems ]}
           {[ "LlamaIndex" := VArray mixedItems; "Other" := VArray [item "x"] ]});
    vm_compute; reflexivity.
Defined.

Lemma Query_search_request_witness :
  graphql.nearVector (searchRequest (services.weaviate movies) embedding3) <> []
  /\ graphql.limit (searchRequest (services.weaviate movies) embedding3) = 3.
Proof.
  destruct (Query_search_request movies movieQuery []) as [Hq _].
  destruct (Hq (searchRequest (services.weaviate movies) embedding3)) as (Hvec & _ & Hlim & _).
  - apply list_elem_of_lookup. exists 3%nat. vm_compute. reflexivity.
  - split; [exact Hvec|exact Hlim].
Defined.

Lemma buildContext_never_empty_witness :
  String.prefix ("--- Context Chunk 1 ---" +:+ LF) (services.buildContext [movieA]) = true
  /\ services.buildContext [] = noContext.
Proof.
  split.
  - destruct (buildContext_never_empty [movieA]) as (_ & _ & Hsome).
    apply Hsome. discriminate.
  - destruct (buildContext_never_empty []) as (_ & Hnone & _).
    apply Hnone. reflexivity.
Defined.

Lemma buildContext_app_witness :
  services.buildContext ([movieA] ++ [movieB]) =
    services.buildContext [movieA] +:+ contextBlock 1 movieB.
Proof.
  assert (Hne : [movieA] <> []) by discriminate.
  rewrite (buildContext_app [movieA] [movieB] Hne). vm_compute. reflexivity.
Defined.

Lemma finalPrompt_holds_inputs_witness :
  Contains (finalPrompt movieQuery [movieA; movieB]) movieB = true.
Proof.
  destruct (finalPrompt_holds_inputs movieQuery [movieA; movieB]) as (_ & _ & Hchunk).
  apply Hchunk. apply list_elem_of_lookup. exists 1%nat. reflexivity.
Defined.

Lemma Handle_error_status_witness :
  (server.customErrorHandler
     (wrapError "failed to search Weaviate: Weaviate query failed: context deadline exceeded"
        (wrapError "Weaviate query failed: context deadline exceeded" timeout))).1 = 500
  /\ written (handlers.Handle (handlers.NewQueryHandler searchDown) (posting movieQuery) []).2
     = [].
Proof.
  destruct (Handle_error_status (handlers.NewQueryHandler searchDown) (posting movieQuery) []
              (wrapError
                 "failed to search Weaviate: Weaviate query failed: context deadline exceeded"
                 (wrapError "Weaviate query failed: context deadline exceeded" timeout)))
    as (Hw & _ & [H400|H500] & H400iff).
  - vm_compute. reflexivity.
  - apply H400iff in H400 as [[e He]|He]; vm_compute in He; discriminate He.
  - split; [exact H500|exact Hw].
Defined.

Lemma Handle_success_writes_answer_witness :
  (handlers.Handle (handlers.NewQueryHandler movies) (posting movieQuery) []).1 = None.
Proof.
  apply (Handle_success_writes_answer (handlers.NewQueryHandler movies) (posting movieQuery) []).
  exists {| models.Query := movieQuery |}, movieAnswer.
  repeat apply conj; try discriminate; vm_compute; reflexivity.
Defined.

Lemma getEnv_empty_is_unset_witness :
  config.getEnv staging "TEI_BASE_URL" "http://localhost:8082" = "http://localhost:8082"
  /\ config.getEnv staging "COLLECTION_NAME" "LlamaIndex" = "Docs".
Proof.
  split.
  - destruct (getEnv_empty_is_unset staging "TEI_BASE_URL" "http://localhost:8082")
      as (Hunset & _).
    apply Hunset. right. vm_compute. reflexivity.
  - destruct (getEnv_empty_is_unset staging "COLLECTION_NAME" "LlamaIndex") as (_ & Hset & _).
    apply (Hset "Docs"); [vm_compute; reflexivity|discriminate].
Defined.

Lemma getEnv_after_set_witness :
  config.getEnv (<["SEARCH_LIMIT" := "50"]> staging) "COLLECTION_NAME" "LlamaIndex"
  = config.getEnv staging "COLLECTION_NAME" "LlamaIndex".
Proof.
  destruct (getEnv_after_set staging "COLLECTION_NAME" "LlamaIndex" "50") as (_ & _ & Hother).
  apply Hother. discriminate.
Defined.

Lemma Load_reads_only_its_variables_witness :
  config.Load unread = config.Load ∅
  /\ config.CollectionName (config.Load unread) = "LlamaIndex".
Proof.
  assert (Hunset : forall k, k ∈ configVariables -> unread !! k = None).
  { intros k Hk. unfold configVariables in Hk. rewrite !elem_of_cons, elem_of_nil in Hk.
    repeat (destruct Hk as [Hk|Hk]; [rewrite Hk; vm_compute; reflexivity|]).
    destruct Hk. }
  destruct (Load_reads_only_its_variables unread ∅) as [Hagree Hdefault].
  split.
  - apply Hagree. intros k Hk. rewrite (Hunset k Hk). symmetry. apply lookup_empty.
  - rewrite (Hdefault Hunset). reflexivity.
Defined.


Lemma New_Load_requests_witness :
  exists srv,
    server.New (config.Load staging) = inr srv /\
    graphql.limit (searchRequest (services.weaviate (server.ragService srv)) embedding3) = 3 /\
    graphql.className (searchRequest (services.weaviate (server.ragService srv)) embedding3)
      = "Docs".
Proof.
  destruct (server.New (config.Load staging)) as [e|srv] eqn:Hnew.
  { vm_compute in Hnew. discriminate Hnew. }
  exists srv. split; [reflexivity|].
  destruct (New_Load_requests staging srv Hnew) as (Hsearch & _).
  destruct (Hsearch embedding3) as [Hlimit Hclass].
  split; [exact Hlimit|]. rewrite Hclass. vm_compute. reflexivity.
Defined.

Lemma GetEmbedding_request_and_decode_errors_witness :
  services.GetEmbedding (teiAnswering (ok "not json")) movieQuery [] =
    ([], Some (wrapError
                 "failed to decode TEI response: invalid character looking for beginning of value"
                 (errorString "invalid character looking for beginning of value")),
     [HTTPDo (embedPost movieQuery)]).
Proof.
  destruct (GetEmbedding_request_and_decode_errors (teiAnswering (ok "not json")) movieQuery [])
    as (_ & _ & Hdecode).
  apply (Hdecode (embedPost movieQuery)
           {| http.StatusCode := 200; http.RespBody := "not json" |}
           (errorString "invalid character looking for beginning of value"));
    vm_compute; reflexivity.
Defined.

Lemma Query_completion_request_witness :
  exists chunks,
    openai.Messages (chatRequest (services.vllm movies)
                       (finalPrompt movieQuery [movieA; movieB])) =
      [ {| openai.Role := "user"; openai.Content := finalPrompt movieQuery chunks |} ].
Proof.
  destruct (Query_completion_request movies movieQuery []
              (chatRequest (services.vllm movies) (finalPrompt movieQuery [movieA; movieB])))
    as (embedding & chunks & _ & _ & Hmsg & _).
  - apply list_elem_of_lookup. exists 6%nat. vm_compute. reflexivity.
  - exists chunks. exact Hmsg.
Defined.
End further_instances.
